(** * sanfu: membership registry and offering log over a relational store

    Shallow embedding of
      - src/backend/db.py   (data-access layer)            -> [Module Db]
      - src/backend/app.py  (FastAPI layer over db.py)     -> [Module Api]
      - src/app.py          (earlier single-file service)  -> [Module App]

    The relational store is an external collaborator.  It is modelled as a
    record of tables with the guarantees the service relies on
    (transactions, foreign keys), reached through a connection whose
    uncommitted work is kept apart from the committed tables.  Any round
    trip to the store (connect, execute, commit) may fail: the world
    carries a plan saying which of the coming round trips do. *)

From Stdlib Require Import ZArith List String Ascii Bool Lia.
From Stdlib Require Import Sorting.Sorted Sorting.Permutation.
From Stdlib Require Import Floats.SpecFloat.
Import ListNotations.

Local Open Scope Z_scope.

(* ================================================================== *)
(** ** Python values the service handles                               *)
(* ================================================================== *)

(** Exceptions that are raised in, or pass through, the three files. *)
Inductive exn : Type :=
| ValueError (msg : string)        (* raised by _resolve_lookup_id *)
| RuntimeError (msg : string)      (* raised by get_connection     *)
| TypeError (msg : string)         (* psycopg2.connect(None)       *)
| StoreError (detail : string)     (* psycopg2.Error               *)
| HTTPException (status_code : Z) (detail : string).

Inductive result (A : Type) : Type :=
| Ok (a : A)
| Raise (e : exn).
Arguments Ok {A} a.
Arguments Raise {A} e.

(** [Optional[Union[int, str]]]: a lookup value is an id or a code. *)
Inductive lookup_value : Type :=
| IntV (n : Z)
| StrV (s : string).

(** A numeric cell as psycopg2 hands it over: a [Decimal] for a NUMERIC
    column ([dec_unscaled / 10 ^ dec_scale]), a [float] for a DOUBLE
    PRECISION one (what [_to_float] calls "already a float"). *)
Inductive sqlnum : Type :=
| SqlNumeric (dec_unscaled : Z) (dec_scale : nat)
| SqlDouble (f : spec_float).

(** A Python number: [int] or [float] (IEEE 754 binary64, written with
    the Standard Library's [spec_float] at precision 53, emax 1024). *)
Inductive pynum : Type :=
| PInt (n : Z)
| PFloat (f : spec_float).

(* ================================================================== *)
(** ** The relational store                                            *)
(* ================================================================== *)

(** membership_levels / interview_statuses *)
Record lookup_row : Type := {
  lk_id : Z;
  lk_code : string }.

(** members.id is a uuid: a 128-bit number the store draws itself. *)
Record member_row : Type := {
  m_id : Z;
  m_name : string;
  m_membership_level_id : option Z;
  m_interview_status_id : option Z;
  m_gender : option string;
  m_birthdate : option Z;
  m_phone : option string;
  m_email : option string;
  m_basic_info : option string;
  m_created_at : Z }.

Record offering_row : Type := {
  o_id : Z;
  o_member_id : Z;
  o_amount : option sqlnum;
  o_currency : string;
  o_donated_at : Z;
  o_note : option string }.

Record database : Type := {
  membership_levels : list lookup_row;
  interview_statuses : list lookup_row;
  members : list member_row;
  offerings : list offering_row;
  next_uuid : Z;            (* generator behind members.id      *)
  next_offering_id : Z;     (* sequence behind offerings.id     *)
  clock : Z;                (* now(), for the column defaults   *)
  default_currency : string }.

(** The statements the service sends, as they appear in a trace. *)
Inductive sql : Type :=
| SelectMembers
| SelectMembersILike (pattern : string)
| SelectMemberIdByName (name : string)
| SelectLookupId (table : string) (code : string)
| InsertMember (name : string) (level_id status_id : option Z)
| DeleteOfferingsOf (member_id : Z)
| DeleteMemberRow (member_id : Z)
| InsertOffering (member_id : Z) (donated_at : option Z)
| SelectOfferingsOf (member_id : Z).

Inductive event : Type :=
| Connect
| Execute (s : sql)
| Commit
| Rollback
| CursorClose
| ConnClose
| Print (line : string).

(** The process and its environment.  [trace] has the newest event
    first.  [txn] is the uncommitted view of the connection in use
    ([None]: no transaction in progress). *)
Record world : Type := {
  database_url : option string;
  store : database;
  txn : option database;
  open_connections : nat;
  faults : list bool;
  trace : list event }.

Definition set_store (d : database) (w : world) : world :=
  {| database_url := database_url w; store := d; txn := txn w;
     open_connections := open_connections w; faults := faults w;
     trace := trace w |}.

Definition set_txn (t : option database) (w : world) : world :=
  {| database_url := database_url w; store := store w; txn := t;
     open_connections := open_connections w; faults := faults w;
     trace := trace w |}.

Definition set_open (n : nat) (w : world) : world :=
  {| database_url := database_url w; store := store w; txn := txn w;
     open_connections := n; faults := faults w; trace := trace w |}.

Definition set_faults (fs : list bool) (w : world) : world :=
  {| database_url := database_url w; store := store w; txn := txn w;
     open_connections := open_connections w; faults := fs;
     trace := trace w |}.

Definition emit (e : event) (w : world) : world :=
  {| database_url := database_url w; store := store w; txn := txn w;
     open_connections := open_connections w; faults := faults w;
     trace := e :: trace w |}.

(** What the connection in use sees: its own uncommitted work if it has
    any, the committed tables otherwise. *)
Definition view (w : world) : database :=
  match txn w with
  | Some d => d
  | None => store w
  end.

(* ================================================================== *)
(** ** State and exceptions                                            *)
(* ================================================================== *)

(** A Python call: it may change the world and ends in a value or in an
    exception; the changes made before an exception stay. *)
Definition M (A : Type) : Type := world -> result A * world.

Definition ret {A} (a : A) : M A := fun w => (Ok a, w).

Definition raise {A} (e : exn) : M A := fun w => (Raise e, w).

Definition bind {A B} (m : M A) (k : A -> M B) : M B :=
  fun w =>
    match m w with
    | (Ok a, w') => k a w'
    | (Raise e, w') => (Raise e, w')
    end.

Declare Scope py_scope.
Delimit Scope py_scope with py.
Notation "x <- m ;; k" := (bind m (fun x => k))
  (at level 100, m at next level, right associativity) : py_scope.
Notation "m ;; k" := (bind m (fun _ => k))
  (at level 100, right associativity) : py_scope.
Local Open Scope py_scope.

(** [try: body / except Exception as e: handler e] *)
Definition try_except {A} (body : M A) (handler : exn -> M A) : M A :=
  fun w =>
    match body w with
    | (Ok a, w') => (Ok a, w')
    | (Raise e, w') => handler e w'
    end.

(** [try: body / finally: fin]: [fin] runs on every exit of [body];
    an exception of [fin] replaces the outcome of [body]. *)
Definition try_finally {A} (body : M A) (fin : M unit) : M A :=
  fun w =>
    match body w with
    | (r, w') =>
        match fin w' with
        | (Ok _, w'') => (r, w'')
        | (Raise e, w'') => (Raise e, w'')
        end
    end.

Definition tell (e : event) : M unit := fun w => (Ok tt, emit e w).

(** One round trip to the store: it fails when the plan says so, and a
    plan that has run out means a store that answers. *)
Definition round_trip : M unit :=
  fun w =>
    match faults w with
    | true :: fs => (Raise (StoreError "store failure"), set_faults fs w)
    | false :: fs => (Ok tt, set_faults fs w)
    | [] => (Ok tt, w)
    end.

(** [psycopg2.connect(dsn)]: a new connection, no transaction yet. *)
Definition connect : M unit :=
  tell Connect ;;
  round_trip ;;
  fun w => (Ok tt, set_txn None (set_open (S (open_connections w)) w)).

(** [cur.execute(...)]: the statement runs inside the connection's
    transaction, which the first statement opens.  A statement the
    store rejects changes nothing. *)
Definition cur_execute {A} (s : sql)
    (run : database -> result A * database) : M A :=
  tell (Execute s) ;;
  round_trip ;;
  fun w =>
    match run (view w) with
    | (Ok a, d) => (Ok a, set_txn (Some d) w)
    | (Raise e, _) => (Raise e, set_txn (Some (view w)) w)
    end.

(** [conn.commit()] *)
Definition conn_commit : M unit :=
  tell Commit ;;
  round_trip ;;
  fun w => (Ok tt, set_txn None (set_store (view w) w)).

(** [conn.rollback()] *)
Definition conn_rollback : M unit :=
  tell Rollback ;;
  fun w => (Ok tt, set_txn None w).

(** [cur.close()] *)
Definition cur_close : M unit := tell CursorClose.

(** [conn.close()]: uncommitted work is dropped with the connection. *)
Definition conn_close : M unit :=
  tell ConnClose ;;
  fun w => (Ok tt, set_txn None (set_open (pred (open_connections w)) w)).

(** [print(...)] *)
Definition print (line : string) : M unit := tell (Print line).

(* ================================================================== *)
(** ** Strings                                                         *)
(* ================================================================== *)

Definition chars (s : string) : list ascii := list_ascii_of_string s.

(** ASCII case folding, as ILIKE compares letters. *)
Definition lower (c : ascii) : ascii :=
  let n := N_of_ascii c in
  if ((65 <=? n) && (n <=? 90))%N then ascii_of_N (n + 32) else c.

Definition hex_digit (n : N) : ascii :=
  if (n <? 10)%N then ascii_of_N (48 + n) else ascii_of_N (87 + n).

(** One character of [repr(str)] inside the quote [q]. *)
Definition repr_char (q c : ascii) : string :=
  let n := N_of_ascii c in
  if Ascii.eqb c "\" then "\\"
  else if Ascii.eqb c q then String "\" (String q "")
  else if (n =? 9)%N then "\t"
  else if (n =? 10)%N then "\n"
  else if (n =? 13)%N then "\r"
  else if ((n <? 32) || (n =? 127))%N
       then String "\" (String "x"
              (String (hex_digit (n / 16)) (String (hex_digit (n mod 16)) "")))
  else String c "".

(** The double quote character. *)
Definition dquote : ascii := ascii_of_N 34.

(** [repr(s)] for a str: single quotes, unless the text has a single
    quote and no double quote. *)
Definition py_repr (s : string) : string :=
  let cs := chars s in
  let q : ascii :=
    if existsb (Ascii.eqb "'") cs && negb (existsb (Ascii.eqb dquote) cs)
    then dquote else "'"%char in
  String q
    (String.append (String.concat "" (map (repr_char q) cs)) (String q "")).

(** *** LIKE patterns *)

Inductive like_token : Type :=
| AnyString             (* %  *)
| AnyChar               (* _  *)
| Literal (c : ascii).  (* the character itself, also after a backslash *)

(** [None]: the pattern ends in a lone escape character, which the
    store refuses. *)
Fixpoint like_tokens (p : list ascii) : option (list like_token) :=
  match p with
  | [] => Some []
  | c :: p' =>
      if Ascii.eqb c "%" then option_map (cons AnyString) (like_tokens p')
      else if Ascii.eqb c "_" then option_map (cons AnyChar) (like_tokens p')
      else if Ascii.eqb c "\" then
        match p' with
        | [] => None
        | c' :: p'' => option_map (cons (Literal c')) (like_tokens p'')
        end
      else option_map (cons (Literal c)) (like_tokens p')
  end.

(** Does the whole of [s] match the tokens?  Letters compare without
    case (ILIKE). *)
Fixpoint ilike_match (ts : list like_token) : list ascii -> bool :=
  match ts with
  | [] => fun s => match s with [] => true | _ :: _ => false end
  | AnyChar :: ts' =>
      fun s => match s with [] => false | _ :: s' => ilike_match ts' s' end
  | Literal c :: ts' =>
      fun s =>
        match s with
        | [] => false
        | d :: s' => Ascii.eqb (lower c) (lower d) && ilike_match ts' s'
        end
  | AnyString :: ts' =>
      fix skip (s : list ascii) : bool :=
        ilike_match ts' s
        || match s with [] => false | _ :: s' => skip s' end
  end.

(* ================================================================== *)
(** ** ORDER BY                                                        *)
(* ================================================================== *)

Fixpoint insert_by {A} (leb : A -> A -> bool) (x : A) (l : list A) : list A :=
  match l with
  | [] => [x]
  | y :: l' => if leb x y then x :: l else y :: insert_by leb x l'
  end.

(** The rows in the order of [leb]; rows that compare equal keep the
    order of the table (the store promises none for them). *)
Definition order_by {A} (leb : A -> A -> bool) (l : list A) : list A :=
  fold_right (insert_by leb) [] l.

(* ================================================================== *)
(** ** binary64 arithmetic of the Python runtime                       *)
(* ================================================================== *)

Module PyFloat.

Definition prec : Z := 53.
Definition emax : Z := 1024.

(** The float nearest to [n / d] (ties to even), for [0 <= n], [0 < d]:
    what [float(Decimal)] and the string-to-float step of [round] do. *)
Definition of_ratio (neg : bool) (n d : Z) : spec_float :=
  if n =? 0 then S754_zero neg
  else
    let '(mz, ez, lz) := SFdiv_core_binary prec emax n 0 d 0 in
    binary_round_aux prec emax neg mz ez lz.

(** [float(Decimal)] *)
Definition of_decimal (unscaled : Z) (scale : nat) : spec_float :=
  of_ratio (unscaled <? 0) (Z.abs unscaled) (10 ^ Z.of_nat scale).

(** [float(n)] for an int within range. *)
Definition of_int (n : Z) : spec_float :=
  binary_normalize prec emax n 0 false.

Definition add : spec_float -> spec_float -> spec_float := SFadd prec emax.

(** [n / d] rounded to the nearest integer, ties to even ([0 <= n],
    [0 < d]). *)
Definition div_half_even (n d : Z) : Z :=
  let q := n / d in
  let r := n mod d in
  match 2 * r ?= d with
  | Lt => q
  | Gt => q + 1
  | Eq => if Z.even q then q else q + 1
  end.

(** The exact value of a finite float, times 100, rounded to an
    integer (ties to even): the digits [round(x, 2)] keeps. *)
Definition hundredths (m : positive) (e : Z) : Z :=
  match e with
  | Zneg p => div_half_even (Zpos m * 100) (2 ^ Zpos p)
  | _ => Zpos m * 2 ^ e * 100
  end.

(** [float.__round__(x, 2)]: the decimal expansion of the exact value
    is cut to two places (ties to even) and read back as a float;
    infinities, NaN and zeros round to themselves. *)
Definition round2 (x : spec_float) : spec_float :=
  match x with
  | S754_finite s m e => of_ratio s (hundredths m e) 100
  | _ => x
  end.

(** [bool(x)] of a float: only the zeros are false. *)
Definition truthy (x : spec_float) : bool :=
  match x with
  | S754_zero _ => false
  | _ => true
  end.

End PyFloat.

(** [a + b] on Python numbers. *)
Definition py_add (a b : pynum) : pynum :=
  match a, b with
  | PInt x, PInt y => PInt (x + y)
  | PInt x, PFloat g => PFloat (PyFloat.add (PyFloat.of_int x) g)
  | PFloat f, PInt y => PFloat (PyFloat.add f (PyFloat.of_int y))
  | PFloat f, PFloat g => PFloat (PyFloat.add f g)
  end.

(** [sum(xs)]: [0 + x1 + x2 + ...], from the left. *)
Definition py_sum (xs : list pynum) : pynum :=
  fold_left py_add xs (PInt 0).

(** [round(x, 2)]; an int rounds to itself. *)
Definition py_round2 (x : pynum) : pynum :=
  match x with
  | PInt n => PInt n
  | PFloat f => PFloat (PyFloat.round2 f)
  end.

(** [x or 0] for an optional number. *)
Definition or_zero (x : option pynum) : pynum :=
  match x with
  | None => PInt 0
  | Some (PInt n) => PInt n
  | Some (PFloat f) => if PyFloat.truthy f then PFloat f else PInt 0
  end.

(* ================================================================== *)
(** ** The statements, on the store's side                             *)
(* ================================================================== *)

Module Sql.

Definition has_member (member_id : Z) (d : database) : bool :=
  existsb (fun m => m_id m =? member_id) (members d).

Definition has_lookup (rows : list lookup_row) (fk : option Z) : bool :=
  match fk with
  | None => true
  | Some n => existsb (fun r => lk_id r =? n) rows
  end.

(** The lookup tables, by name; no other table has a [code] column. *)
Definition lookup_table (table : string) (d : database)
  : option (list lookup_row) :=
  if String.eqb table "membership_levels" then Some (membership_levels d)
  else if String.eqb table "interview_statuses" then Some (interview_statuses d)
  else None.

(** SELECT id, name FROM members ORDER BY created_at *)
Definition select_members (d : database)
  : result (list (Z * string)) * database :=
  (Ok (map (fun m => (m_id m, m_name m))
         (order_by (fun a b => m_created_at a <=? m_created_at b) (members d))),
   d).

(** SELECT id, name FROM members WHERE name ILIKE pattern ORDER BY name *)
Definition select_members_ilike (pattern : string) (d : database)
  : result (list (Z * string)) * database :=
  match like_tokens (chars pattern) with
  | None =>
      (Raise (StoreError "LIKE pattern must not end with escape character"), d)
  | Some ts =>
      (Ok (map (fun m => (m_id m, m_name m))
             (order_by (fun a b => String.leb (m_name a) (m_name b))
                (filter (fun m => ilike_match ts (chars (m_name m)))
                   (members d)))),
       d)
  end.

(** SELECT id FROM members WHERE name = %s, first row *)
Definition select_member_id_by_name (name : string) (d : database)
  : result (option Z) * database :=
  (Ok (option_map m_id
         (find (fun m => String.eqb (m_name m) name) (members d))),
   d).

(** SELECT id FROM <table> WHERE code = %s, first row *)
Definition select_lookup_id (table code : string) (d : database)
  : result (option Z) * database :=
  match lookup_table table d with
  | None => (Raise (StoreError "no such lookup table"), d)
  | Some rows =>
      (Ok (option_map lk_id
             (find (fun r => String.eqb (lk_code r) code) rows)),
       d)
  end.

(** INSERT INTO members (...) VALUES (...) RETURNING ...: the id and
    created_at come from the store; a foreign key that points nowhere
    and a duplicate primary key are refused. *)
Definition insert_member (name : string) (level_id status_id : option Z)
    (gender : option string) (birthdate : option Z)
    (phone email basic_info : option string) (d : database)
  : result member_row * database :=
  if negb (has_lookup (membership_levels d) level_id
           && has_lookup (interview_statuses d) status_id)
  then (Raise (StoreError "foreign key violation"), d)
  else if has_member (next_uuid d) d
  then (Raise (StoreError "duplicate key"), d)
  else
    let row :=
      {| m_id := next_uuid d; m_name := name;
         m_membership_level_id := level_id;
         m_interview_status_id := status_id;
         m_gender := gender; m_birthdate := birthdate;
         m_phone := phone; m_email := email;
         m_basic_info := basic_info; m_created_at := clock d |} in
    (Ok row,
     {| membership_levels := membership_levels d;
        interview_statuses := interview_statuses d;
        members := members d ++ [row];
        offerings := offerings d;
        next_uuid := next_uuid d + 1;
        next_offering_id := next_offering_id d;
        clock := clock d + 1;
        default_currency := default_currency d |}).

(** DELETE FROM offerings WHERE member_id = %s; the value is rowcount *)
Definition delete_offerings_of (member_id : Z) (d : database)
  : result Z * database :=
  (Ok (Z.of_nat
         (List.length (filter (fun o => o_member_id o =? member_id) (offerings d)))),
   {| membership_levels := membership_levels d;
      interview_statuses := interview_statuses d;
      members := members d;
      offerings :=
        filter (fun o => negb (o_member_id o =? member_id)) (offerings d);
      next_uuid := next_uuid d;
      next_offering_id := next_offering_id d;
      clock := clock d;
      default_currency := default_currency d |}).

(** DELETE FROM members WHERE id = %s; the value is rowcount.  The
    foreign key of offerings has no cascade: a member row that still
    has offerings cannot go. *)
Definition delete_member_row (member_id : Z) (d : database)
  : result Z * database :=
  if has_member member_id d
     && existsb (fun o => o_member_id o =? member_id) (offerings d)
  then (Raise (StoreError "foreign key violation"), d)
  else
    (Ok (Z.of_nat
           (List.length (filter (fun m => m_id m =? member_id) (members d)))),
     {| membership_levels := membership_levels d;
        interview_statuses := interview_statuses d;
        members := filter (fun m => negb (m_id m =? member_id)) (members d);
        offerings := offerings d;
        next_uuid := next_uuid d;
        next_offering_id := next_offering_id d;
        clock := clock d;
        default_currency := default_currency d |}).

(** INSERT INTO offerings (member_id, amount, note[, donated_at])
    VALUES (...) RETURNING id, amount, currency, donated_at, note;
    without the donated_at column its default, now(), applies. *)
Definition insert_offering (member_id : Z) (amount : sqlnum) (note : string)
    (donated_at : option Z) (d : database)
  : result offering_row * database :=
  if negb (has_member member_id d)
  then (Raise (StoreError "foreign key violation"), d)
  else if existsb (fun o => o_id o =? next_offering_id d) (offerings d)
  then (Raise (StoreError "duplicate key"), d)
  else
    let row :=
      {| o_id := next_offering_id d; o_member_id := member_id;
         o_amount := Some amount; o_currency := default_currency d;
         o_donated_at :=
           match donated_at with Some t => t | None => clock d end;
         o_note := Some note |} in
    (Ok row,
     {| membership_levels := membership_levels d;
        interview_statuses := interview_statuses d;
        members := members d;
        offerings := offerings d ++ [row];
        next_uuid := next_uuid d;
        next_offering_id := next_offering_id d + 1;
        clock := clock d + 1;
        default_currency := default_currency d |}).

(** SELECT id, amount, currency, donated_at, note FROM offerings
    WHERE member_id = %s ORDER BY donated_at DESC *)
Definition select_offerings_of (member_id : Z) (d : database)
  : result (list offering_row) * database :=
  (Ok (order_by (fun a b => o_donated_at b <=? o_donated_at a)
         (filter (fun o => o_member_id o =? member_id) (offerings d))),
   d).

End Sql.

(** [str(e)] *)
Definition exn_str (e : exn) : string :=
  match e with
  | ValueError msg => msg
  | RuntimeError msg => msg
  | TypeError msg => msg
  | StoreError detail => detail
  | HTTPException _ detail => detail
  end.

(* ================================================================== *)
(** ** src/backend/db.py                                               *)
(* ================================================================== *)

Module Db.

(** {"id": ..., "name": ...} *)
Record member_dict : Type := {
  md_id : Z;
  md_name : string }.

(** {"id", "amount", "currency", "donated_at", "note"} *)
Record offering_dict : Type := {
  od_id : Z;
  od_amount : option pynum;
  od_currency : string;
  od_donated_at : Z;
  od_note : option string }.

(** {"member_id", "total", "log"} *)
Record offering_log : Type := {
  ol_member_id : Z;
  ol_total : pynum;
  ol_log : list offering_dict }.

Definition get_connection : M unit :=
  fun w =>
    match database_url w with
    | None => raise (RuntimeError "DATABASE_URL not set") w
    | Some EmptyString => raise (RuntimeError "DATABASE_URL not set") w
    | Some _ => connect w
    end.

Definition _to_float (x : option sqlnum) : option pynum :=
  match x with
  | None => None
  | Some (SqlNumeric u s) => Some (PFloat (PyFloat.of_decimal u s))
  | Some (SqlDouble f) => Some (PFloat f)
  end.

Definition _member_row_to_dict (row : Z * string) : member_dict :=
  {| md_id := fst row; md_name := snd row |}.

Definition _offering_row_to_dict (row : offering_row) : offering_dict :=
  {| od_id := o_id row;
     od_amount := _to_float (o_amount row);
     od_currency := o_currency row;
     od_donated_at := o_donated_at row;
     od_note := o_note row |}.

(** f"Unknown code in {table}: {value!r}" *)
Definition unknown_code (table value : string) : string :=
  String.append "Unknown code in "
    (String.append table (String.append ": " (py_repr value))).

Definition _resolve_lookup_id (table : string) (value : option lookup_value)
  : M (option Z) :=
  match value with
  | None => ret None
  | Some (IntV n) => ret (Some n)
  | Some (StrV code) =>
      row <- cur_execute (SelectLookupId table code)
               (Sql.select_lookup_id table code) ;;
      match row with
      | None => raise (ValueError (unknown_code table code))
      | Some n => ret (Some n)
      end
  end.

Definition get_all_members : M (list member_dict) :=
  get_connection ;;
  rows <- cur_execute SelectMembers Sql.select_members ;;
  cur_close ;;
  conn_close ;;
  ret (map _member_row_to_dict rows).

(** f"%{term}%" *)
Definition ilike_pattern (term : string) : string :=
  String "%" (String.append term "%").

Definition search_members_by_name (term : string) : M (list member_dict) :=
  get_connection ;;
  rows <- cur_execute (SelectMembersILike (ilike_pattern term))
            (Sql.select_members_ilike (ilike_pattern term)) ;;
  cur_close ;;
  conn_close ;;
  ret (map _member_row_to_dict rows).

Definition get_member_id_by_name (name : string) : M (option Z) :=
  get_connection ;;
  row <- cur_execute (SelectMemberIdByName name)
           (Sql.select_member_id_by_name name) ;;
  cur_close ;;
  conn_close ;;
  ret row.

Definition create_member (name : string)
    (membership_level interview_status : option lookup_value)
    (gender : option string) (birthdate : option Z)
    (phone email basic_info : option string) : M member_dict :=
  get_connection ;;
  try_finally
    (try_except
       (level_id <- _resolve_lookup_id "membership_levels" membership_level ;;
        status_id <- _resolve_lookup_id "interview_statuses" interview_status ;;
        row <- cur_execute (InsertMember name level_id status_id)
                 (Sql.insert_member name level_id status_id gender birthdate
                    phone email basic_info) ;;
        conn_commit ;;
        ret {| md_id := m_id row; md_name := m_name row |})
       (fun e => conn_rollback ;; raise e))
    (cur_close ;; conn_close).

Definition delete_member (member_id : Z) : M Z :=
  get_connection ;;
  try_finally
    (try_except
       (cur_execute (DeleteOfferingsOf member_id)
          (Sql.delete_offerings_of member_id) ;;
        deleted <- cur_execute (DeleteMemberRow member_id)
                     (Sql.delete_member_row member_id) ;;
        conn_commit ;;
        ret deleted)
       (fun e => conn_rollback ;; raise e))
    (cur_close ;; conn_close).

(** [amount] is the number as the store records it. *)
Definition add_offering (member_id : Z) (amount : sqlnum) (note : string)
    (donated_at : option Z) : M offering_dict :=
  get_connection ;;
  try_finally
    (try_except
       (row <- match donated_at with
               | None =>
                   cur_execute (InsertOffering member_id None)
                     (Sql.insert_offering member_id amount note None)
               | Some t =>
                   cur_execute (InsertOffering member_id (Some t))
                     (Sql.insert_offering member_id amount note (Some t))
               end ;;
        conn_commit ;;
        ret (_offering_row_to_dict row))
       (fun e => conn_rollback ;; raise e))
    (cur_close ;; conn_close).

Definition get_offerings_for_member (member_id : Z) : M offering_log :=
  get_connection ;;
  try_finally
    (rows <- cur_execute (SelectOfferingsOf member_id)
               (Sql.select_offerings_of member_id) ;;
     let log := map _offering_row_to_dict rows in
     let total := py_round2 (py_sum (map (fun o => or_zero (od_amount o)) log)) in
     ret {| ol_member_id := member_id; ol_total := total; ol_log := log |})
    (cur_close ;; conn_close).

End Db.

(* ================================================================== *)
(** ** src/backend/app.py                                              *)
(* ================================================================== *)

Module Api.

(** What the framework sends once the handler is done. *)
Inductive response (A : Type) : Type :=
| Reply (status : Z) (body : A)              (* the handler returned        *)
| ErrorReply (status : Z) (detail : string)  (* it raised HTTPException     *)
| Crash (e : exn).                           (* another exception got out   *)
Arguments Reply {A} status body.
Arguments ErrorReply {A} status detail.
Arguments Crash {A} e.

Definition serve {A} (status_code : Z) (handler : M A)
  : world -> response A * world :=
  fun w =>
    match handler w with
    | (Ok a, w') => (Reply status_code a, w')
    | (Raise (HTTPException s d), w') => (ErrorReply s d, w')
    | (Raise e, w') => (Crash e, w')
    end.

Record MemberCreate : Type := {
  name : string;
  membership_level : option lookup_value;
  interview_status : option lookup_value;
  gender : option string;
  birthdate : option Z;         (* a datetime, in seconds *)
  phone : option string;
  email : option string;
  basic_info : option string }.

Record OfferingCreate : Type := {
  member_id : Z;
  amount : sqlnum;
  note : option string;
  donated_at : option Z }.

(** [datetime.date()], a date being a count of days. *)
Definition datetime_date (t : Z) : Z := t / 86400.

(** {"status": "ok"} *)
Definition health : M string := ret "ok"%string.

Definition api_get_members : M (list Db.member_dict) :=
  Db.get_all_members.

Definition api_search_members (name : string) : M (list Db.member_dict) :=
  Db.search_members_by_name name.

Definition api_get_member_id (name : string) : M Z :=
  member_id <- Db.get_member_id_by_name name ;;
  match member_id with
  | None => raise (HTTPException 404 "Member not found")
  | Some i => ret i
  end.

Definition api_add_member (member : MemberCreate) : M Db.member_dict :=
  try_except
    (Db.create_member (name member) (membership_level member)
       (interview_status member) (gender member)
       (option_map datetime_date (birthdate member))
       (phone member) (email member) (basic_info member))
    (fun e =>
       match e with
       | ValueError msg => raise (HTTPException 400 msg)
       | _ => raise (HTTPException 500 "Failed to create member")
       end).

Definition api_delete_member_ep (member_id : Z) : M unit :=
  try_except
    (deleted <- Db.delete_member member_id ;;
     if deleted =? 0
     then raise (HTTPException 404 "Member not found")
     else ret tt)
    (fun e =>
       match e with
       | HTTPException _ _ => raise e
       | _ => raise (HTTPException 500 "Failed to delete member")
       end).

Definition api_add_offering (body : OfferingCreate) : M Db.offering_dict :=
  try_except
    (Db.add_offering (member_id body) (amount body)
       (match note body with Some s => s | None => EmptyString end)
       (donated_at body))
    (fun _ => raise (HTTPException 400 "Failed to add offering")).

Definition api_member_offerings (member_id : Z) : M Db.offering_log :=
  try_except
    (Db.get_offerings_for_member member_id)
    (fun _ => raise (HTTPException 400 "Failed to fetch offerings")).

End Api.

(* ================================================================== *)
(** ** src/app.py                                                      *)
(* ================================================================== *)

Module App.

Definition get_connection : M unit :=
  fun w =>
    match database_url w with
    | None => raise (TypeError "missing dsn and no parameters") w
    | Some _ => connect w
    end.

Definition get_all_members : M (list (Z * string)) :=
  get_connection ;;
  rows <- cur_execute SelectMembers Sql.select_members ;;
  cur_close ;;
  conn_close ;;
  ret rows.

Definition get_member_id_by_name (name : string) : M (option Z) :=
  get_connection ;;
  row <- cur_execute (SelectMemberIdByName name)
           (Sql.select_member_id_by_name name) ;;
  cur_close ;;
  conn_close ;;
  ret row.

(** The value is the pair (id, donated_at) of the inserted row. *)
Definition add_offering (member_id : Z) (amount : sqlnum) (note : string)
  : M (Z * Z) :=
  get_connection ;;
  offering <- cur_execute (InsertOffering member_id None)
                (Sql.insert_offering member_id amount note None) ;;
  conn_commit ;;
  cur_close ;;
  conn_close ;;
  ret (o_id offering, o_donated_at offering).

Definition get_offerings_for_member (member_id : Z) : M (list offering_row) :=
  get_connection ;;
  rows <- cur_execute (SelectOfferingsOf member_id)
            (Sql.select_offerings_of member_id) ;;
  cur_close ;;
  conn_close ;;
  ret rows.

(** It has no return statement: the value is None on every path. *)
Definition delete_member (member_id : Z) : M unit :=
  get_connection ;;
  try_finally
    (try_except
       (cur_execute (DeleteOfferingsOf member_id)
          (Sql.delete_offerings_of member_id) ;;
        cur_execute (DeleteMemberRow member_id)
          (Sql.delete_member_row member_id) ;;
        conn_commit)
       (fun e =>
          conn_rollback ;;
          print (String.append "Error deleting member: " (exn_str e))))
    (cur_close ;; conn_close ;; print "delete done").

(** f"Unknown membership level code: {level_code!r}" and its twin *)
Definition unknown_level (code : string) : string :=
  String.append "Unknown membership level code: " (py_repr code).

Definition unknown_status (code : string) : string :=
  String.append "Unknown interview status code: " (py_repr code).

(** The value is the inserted row (id, name, membership_level_id,
    interview_status_id), or None after an exception. *)
Definition create_member (name level_code status_code : string)
    (gender : option string) (birthdate : option Z)
    (phone email basic_info : option string)
  : M (option (Z * string * option Z * option Z)) :=
  get_connection ;;
  try_finally
    (try_except
       (row <- cur_execute (SelectLookupId "membership_levels" level_code)
                 (Sql.select_lookup_id "membership_levels" level_code) ;;
        membership_level_id <-
          match row with
          | None => raise (ValueError (unknown_level level_code))
          | Some n => ret n
          end ;;
        row <- cur_execute (SelectLookupId "interview_statuses" status_code)
                 (Sql.select_lookup_id "interview_statuses" status_code) ;;
        interview_status_id <-
          match row with
          | None => raise (ValueError (unknown_status status_code))
          | Some n => ret n
          end ;;
        new_member <-
          cur_execute
            (InsertMember name (Some membership_level_id)
               (Some interview_status_id))
            (Sql.insert_member name (Some membership_level_id)
               (Some interview_status_id) gender birthdate phone email
               basic_info) ;;
        conn_commit ;;
        ret (Some (m_id new_member, m_name new_member,
                   m_membership_level_id new_member,
                   m_interview_status_id new_member)))
       (fun e =>
          conn_rollback ;;
          print (String.append "Error creating member: " (exn_str e)) ;;
          ret None))
    (cur_close ;; conn_close).

Record MemberCreate : Type := {
  name : string;
  membership_level : string;
  interview_status : string }.

Definition api_get_members : M (list (Z * string)) :=
  get_all_members.

(** {"id": ...}, the id being None when no member has the name. *)
Definition api_get_member_id (name : string) : M (option Z) :=
  get_member_id_by_name name.

Definition api_add_member (member : MemberCreate)
  : M (option (Z * string * option Z * option Z)) :=
  create_member (name member) (membership_level member)
    (interview_status member) None None None None None.



End App.

(* ================================================================== *)
(** ** Vocabulary of the properties                                    *)
(* ================================================================== *)

(** A process that has its connection string. *)
Definition configured (w : world) : bool :=
  match database_url w with
  | Some (String _ _) => true
  | _ => false
  end.





(** No row of [rows] carries the code that [v] is. *)
Definition unknown_code_in (rows : list lookup_row) (v : option lookup_value)
  : Prop :=
  exists code : string,
    v = Some (StrV code) /\ forall r, In r rows -> lk_code r <> code.

(** The tables once a member and the offerings it owns are gone. *)
Definition purge (member_id : Z) (d : database) : database :=
  {| membership_levels := membership_levels d;
     interview_statuses := interview_statuses d;
     members := filter (fun m => negb (m_id m =? member_id)) (members d);
     offerings :=
       filter (fun o => negb (o_member_id o =? member_id)) (offerings d);
     next_uuid := next_uuid d;
     next_offering_id := next_offering_id d;
     clock := clock d;
     default_currency := default_currency d |}.

(** A failure of the data-access layer that is not the classified one
    (UnknownCode, a ValueError) and not an HTTP error of the API layer:
    a constraint violation, a lost connection, a missing setting. *)
Definition unclassified (e : exn) : Prop :=
  match e with
  | ValueError _ => False
  | HTTPException _ _ => False
  | _ => True
  end.

(** *** A small registry to run the calls on *)

Definition member (id : Z) (name : string) (level : option Z) (created : Z)
  : member_row :=
  {| m_id := id; m_name := name;
     m_membership_level_id := level; m_interview_status_id := None;
     m_gender := None; m_birthdate := None; m_phone := None;
     m_email := None; m_basic_info := None; m_created_at := created |}.

Definition offering (id member_id : Z) (amount : option sqlnum) (at_ : Z)
  : offering_row :=
  {| o_id := id; o_member_id := member_id; o_amount := amount;
     o_currency := "USD"; o_donated_at := at_; o_note := None |}.

Definition sample_store : database :=
  {| membership_levels :=
       [ {| lk_id := 1; lk_code := "participant" |};
         {| lk_id := 2; lk_code := "member" |} ];
     interview_statuses :=
       [ {| lk_id := 1; lk_code := "undecided" |};
         {| lk_id := 2; lk_code := "accepted" |} ];
     members :=
       [ member 10 "Mei Lin" (Some 1) 5;
         member 11 "Bob" None 3;
         member 12 "Ameila" (Some 2) 7 ];
     offerings :=
       [ offering 1 10 (Some (SqlNumeric 50 0)) 100;
         offering 2 10 (Some (SqlNumeric 255 1)) 200;
         offering 3 10 None 150;
         offering 4 12 (Some (SqlNumeric 100555 3)) 120 ];
     next_uuid := 13;
     next_offering_id := 5;
     clock := 1000;
     default_currency := "USD" |}.

(** A configured process, no connection open, a store that answers. *)
Definition sample_world : world :=
  {| database_url := Some "postgresql://registry"%string;
     store := sample_store;
     txn := None;
     open_connections := 0;
     faults := [];
     trace := [] |}.

(** The same, with a store that accepts the connection and then fails
    the first statement. *)
Definition flaky_world : world := set_faults [false; true] sample_world.

(** *** Vocabulary of the further properties *)

(** What the store promises about its tables: primary keys are unique
    and every foreign key points at a row. *)
Definition consistent (d : database) : Prop :=
  NoDup (map m_id (members d)) /\
  NoDup (map o_id (offerings d)) /\
  (forall o, In o (offerings d) -> Sql.has_member (o_member_id o) d = true) /\
  (forall m, In m (members d) ->
     Sql.has_lookup (membership_levels d) (m_membership_level_id m) = true /\
     Sql.has_lookup (interview_statuses d) (m_interview_status_id m) = true).

(** The foreign key a lookup value stands for in [rows]: nothing for an
    absent value, the integer itself, the id of the first row with the
    code; [None] when the code is in no row. *)
Definition resolved (rows : list lookup_row) (v : option lookup_value)
  : option (option Z) :=
  match v with
  | None => Some None
  | Some (IntV n) => Some (Some n)
  | Some (StrV code) =>
      option_map (fun r => Some (lk_id r))
        (find (fun r => String.eqb (lk_code r) code) rows)
  end.

(** The term with its letters in lower case. *)
Definition lowercase (s : string) : string :=
  string_of_list_ascii (map lower (chars s)).

Definition lower_token (t : like_token) : like_token :=
  match t with
  | Literal c => Literal (lower c)
  | _ => t
  end.

(** A process started without DATABASE_URL. *)
Definition offline_world : world :=
  {| database_url := None;
     store := sample_store;
     txn := None;
     open_connections := 0;
     faults := [];
     trace := [] |}.

(* ================================================================== *)
(** ** Proof steps shared by the calls                                 *)
(* ================================================================== *)

(** Takes a configured world with a store that answers apart into its
    fields. *)
Ltac open_world w :=
  let url := fresh "url" in
  destruct w as [url ? ? ? ? ?]; simpl in *; subst;
  try (destruct url as [[|? ?]|]; [discriminate| |discriminate]).

(** Splits on what the plan says about the coming round trips. *)
Ltac plan_cases :=
  repeat match goal with
    | |- context [match ?fs with [] => _ | _ :: _ => _ end] =>
        is_var fs; destruct fs as [|[|] fs]; cbn
    | H : context [match ?fs with [] => _ | _ :: _ => _ end] |- _ =>
        is_var fs; destruct fs as [|[|] fs]; cbn in H
    end.

Ltac any_world w :=
  let url := fresh "url" in
  let fs := fresh "fs" in
  destruct w as [url ? ? ? fs ?]; destruct url as [[|? ?]|]; cbn in *.

(** Finds the events a call has added in front of the trace [t]. *)
Ltac prefix_of evs t :=
  lazymatch evs with
  | t => constr:(@nil event)
  | ?e :: ?r => let r' := prefix_of r t in constr:(e :: r')
  end.

Ltac trace_split :=
  cbn;
  repeat match goal with |- ?e :: _ = ?e :: _ => apply f_equal end;
  lazymatch goal with
  | |- ?evs = ?s ++ ?t => let l := prefix_of evs t in unify s l; reflexivity
  end.


(** Runs a call of db.py or app.py on any world, splitting on the
    plan, on the optional arguments, on what a lookup finds and on the
    checks of the store. *)
Ltac run_cases :=
  repeat first
    [ reflexivity
    | progress plan_cases
    | match goal with
      | |- context [match ?v with Some _ => _ | None => _ end] =>
          is_var v; first [destruct v as [[?|?]|] | destruct v]; simpl
      | |- context [find ?f ?l] => destruct (find f l); simpl
      | |- context [like_tokens ?p] => destruct (like_tokens p); simpl
      | |- context [if ?c then _ else _] => destruct c; simpl
      end ].
(* ================================================================== *)
(** ** Properties                                                      *)
(* ================================================================== *)

(** *** ORDER BY sorts and keeps the rows *)

Section OrderBy.
Context {A : Type} (leb : A -> A -> bool).
Hypothesis leb_total : forall x y, leb x y = true \/ leb y x = true.
Hypothesis leb_trans :
  forall x y z, leb x y = true -> leb y z = true -> leb x z = true.

Lemma insert_by_perm (x : A) (l : list A) :
  Permutation (x :: l) (insert_by leb x l).
Proof.
  induction l as [|y l IH]; simpl; [reflexivity|].
  destruct (leb x y); [reflexivity|].
  rewrite perm_swap. now apply perm_skip.
Qed.

Lemma order_by_perm (l : list A) : Permutation l (order_by leb l).
Proof.
  induction l as [|x l IH]; simpl; [constructor|].
  rewrite <- insert_by_perm. now apply perm_skip.
Qed.

Lemma insert_by_sorted (x : A) (l : list A) :
  StronglySorted (fun a b => leb a b = true) l ->
  StronglySorted (fun a b => leb a b = true) (insert_by leb x l).
Proof.
  induction 1 as [|y l Hs IH Hy]; simpl.
  - repeat constructor.
  - destruct (leb x y) eqn:Hxy.
    + constructor; [now constructor|].
      constructor; [exact Hxy|].
      rewrite Forall_forall in *. intros z Hz.
      apply (leb_trans x y z Hxy). now apply Hy.
    + constructor; [exact IH|].
      rewrite Forall_forall in *. intros z Hz.
      apply (Permutation_in _ (Permutation_sym (insert_by_perm x l))) in Hz.
      destruct Hz as [<-|Hz]; [|now apply Hy]. cbn beta.
      destruct (leb_total x y) as [H|H]; [congruence|exact H].
Qed.

Lemma order_by_sorted (l : list A) :
  StronglySorted (fun a b => leb a b = true) (order_by leb l).
Proof.
  induction l as [|x l IH]; simpl; [constructor|].
  now apply insert_by_sorted.
Qed.

Lemma order_by_nil_iff (l : list A) : order_by leb l = [] <-> l = [].
Proof.
  split; [|now intros ->].
  intros H. apply Permutation_nil. rewrite <- H.
  apply Permutation_sym, order_by_perm.
Qed.
End OrderBy.



(** *** Running a call on a store that answers *)

Lemma get_offerings_run (member_id : Z) (w : world) :
  configured w = true -> faults w = [] ->
  let rows := order_by (fun a b => o_donated_at b <=? o_donated_at a)
                (filter (fun o => o_member_id o =? member_id)
                   (offerings (store w))) in
  let log := map Db._offering_row_to_dict rows in
  fst (Db.get_offerings_for_member member_id w) =
    Ok {| Db.ol_member_id := member_id;
          Db.ol_total :=
            py_round2 (py_sum (map (fun o => or_zero (Db.od_amount o)) log));
          Db.ol_log := log |}.
Proof.
  intros Hc Hf. open_world w. reflexivity.
Qed.

(* ================================================================== *)
(** ** Facts about the store and the monad                             *)
(* ================================================================== *)

Lemma find_code_unique (rows : list lookup_row) (r : lookup_row) :
  NoDup (map lk_code rows) -> In r rows ->
  find (fun x => String.eqb (lk_code x) (lk_code r)) rows = Some r.
Proof.
  induction rows as [|x rows IH]; simpl; intros Hnd Hin; [contradiction|].
  inversion Hnd as [|? ? Hx Hnd']; subst.
  destruct Hin as [->|Hin].
  - now rewrite String.eqb_refl.
  - destruct (String.eqb_spec (lk_code x) (lk_code r)) as [Heq|_].
    + exfalso. apply Hx. rewrite Heq. now apply in_map.
    + now apply IH.
Qed.

Lemma find_code_none (rows : list lookup_row) (code : string) :
  (forall r, In r rows -> lk_code r <> code) ->
  find (fun x => String.eqb (lk_code x) code) rows = None.
Proof.
  induction rows as [|x rows IH]; simpl; intros H; [reflexivity|].
  destruct (String.eqb_spec (lk_code x) code) as [Heq|_].
  - exfalso. now apply (H x); [left|].
  - apply IH. intros r Hr. apply H. now right.
Qed.

Lemma resolve_code_run (table code : string) (rows : list lookup_row)
    (w : world) :
  Sql.lookup_table table (view w) = Some rows ->
  faults w = [] ->
  Db._resolve_lookup_id table (Some (StrV code)) w =
    (match find (fun x => String.eqb (lk_code x) code) rows with
     | Some r => Ok (Some (lk_id r))
     | None => Raise (ValueError (Db.unknown_code table code))
     end,
     set_txn (Some (view w)) (emit (Execute (SelectLookupId table code)) w)).
Proof.
  intros Htab Hf. destruct w as [url st tx oc fs tr]. simpl in Hf. subst fs.
  unfold Db._resolve_lookup_id, cur_execute, bind, tell, round_trip,
    Sql.select_lookup_id.
  cbn. change (view _) with (view {| database_url := url; store := st; txn := tx;
    open_connections := oc; faults := []; trace := tr |}).
  unfold view in *. cbn in *. rewrite Htab. cbn.
  now destruct (find _ rows).
Qed.

(** C5.  [_resolve_lookup_id]: an absent value gives an absent result
    and an integer comes back as it is, in both cases without a word to
    the store (so for any table name, and nothing checks the integer);
    a string is looked up by exact match of [code] in the lookup table,
    gives the id of the row that has it, and is a [ValueError]
    (UnknownCode) when no row has it. *)
Theorem resolve_lookup_id_spec :
  forall (table : string) (w : world),
    Db._resolve_lookup_id table None w = (Ok None, w) /\
    (forall n : Z,
        Db._resolve_lookup_id table (Some (IntV n)) w = (Ok (Some n), w)) /\
    (forall (rows : list lookup_row) (code : string),
        Sql.lookup_table table (view w) = Some rows ->
        NoDup (map lk_code rows) ->
        faults w = [] ->
        (forall r, In r rows -> lk_code r = code ->
           fst (Db._resolve_lookup_id table (Some (StrV code)) w)
           = Ok (Some (lk_id r))) /\
        ((forall r, In r rows -> lk_code r <> code) ->
           fst (Db._resolve_lookup_id table (Some (StrV code)) w)
           = Raise (ValueError (Db.unknown_code table code)))).
Proof.
  intros table w. split; [reflexivity|]. split; [reflexivity|].
  intros rows code Htab Hnd Hf. split.
  - intros r Hin Hcode. subst code.
    rewrite (resolve_code_run _ _ _ _ Htab Hf).
    now rewrite (find_code_unique _ _ Hnd Hin).
  - intros Hnone.
    rewrite (resolve_code_run _ _ _ _ Htab Hf).
    now rewrite (find_code_none _ _ Hnone).
Qed.

(** *** Rounding to hundredths *)


Lemma div_half_even_tie (n d : Z) :
  0 < d -> 2 * (n mod d) = d -> Z.even (PyFloat.div_half_even n d) = true.
Proof.
  intros Hd Ht. unfold PyFloat.div_half_even.
  rewrite Ht, Z.compare_refl.
  destruct (Z.even (n / d)) eqn:He; [exact He|].
  rewrite Z.even_add, He. reflexivity.
Qed.

(** The three worked totals of the specification. *)
Example total_50_and_25_5 :
  py_round2 (py_sum [PFloat (PyFloat.of_decimal 50 0);
                     PFloat (PyFloat.of_decimal 255 1)])
  = PFloat (PyFloat.of_decimal 755 1).
Proof. vm_compute. reflexivity. Qed.

Example total_100_555 :
  py_round2 (py_sum [PFloat (PyFloat.of_decimal 100555 3)])
  = PFloat (PyFloat.of_decimal 10056 2).
Proof. vm_compute. reflexivity. Qed.

Example total_tie_to_even :
  py_round2 (py_sum [PFloat (PyFloat.of_decimal 125 3)])
  = PFloat (PyFloat.of_decimal 12 2).
Proof. vm_compute. reflexivity. Qed.


Lemma StronglySorted_impl {A} (R R' : A -> A -> Prop) (l : list A) :
  (forall x y, R x y -> R' x y) ->
  StronglySorted R l -> StronglySorted R' l.
Proof.
  intros HR. induction 1 as [|x l Hs IH Hx]; constructor; auto.
  eapply Forall_impl; [|exact Hx]. auto.
Qed.


Lemma filter_none {A} (f : A -> bool) (l : list A) :
  (forall x, In x l -> f x = false) -> filter f l = [].
Proof.
  induction l as [|x l IH]; simpl; intros H; [reflexivity|].
  rewrite (H x) by now left. apply IH. intros y Hy. apply H. now right.
Qed.


(** *** ILIKE with a wildcard-free term is substring search *)

Lemma chars_append (a b : string) :
  chars (String.append a b) = chars a ++ chars b.
Proof.
  induction a as [|c a IH]; simpl; [reflexivity|]. unfold chars in *.
  simpl. now rewrite IH.
Qed.






Lemma search_run (term : string) (w : world) :
  configured w = true -> faults w = [] ->
  fst (Db.search_members_by_name term w) =
    match like_tokens (chars (Db.ilike_pattern term)) with
    | None =>
        Raise (StoreError "LIKE pattern must not end with escape character")
    | Some ts =>
        Ok (map (fun m => {| Db.md_id := m_id m; Db.md_name := m_name m |})
              (order_by (fun a b => String.leb (m_name a) (m_name b))
                 (filter (fun m => ilike_match ts (chars (m_name m)))
                    (members (store w)))))
    end.
Proof.
  intros Hc Hf. unfold Db.search_members_by_name.
  generalize (Db.ilike_pattern term). intros pattern.
  open_world w.
  unfold Db.get_connection, connect, cur_execute, bind, tell, round_trip,
    cur_close, conn_close, ret, Sql.select_members_ilike.
  cbn. destruct (like_tokens (chars pattern)) as [ts|]; cbn; [|reflexivity].
  now rewrite map_map.
Qed.


(** C1.  On a configured process whose store answers, [create_member]
    with a membership_level or an interview_status that is a code no
    row of its lookup table carries raises ValueError (UnknownCode).
    Nothing of the call is persisted: the transaction is rolled back,
    the committed tables are the ones from before the call, the
    connection is closed, and a listing made afterwards equals one made
    before. *)
Theorem create_member_unknown_code :
  forall (name : string) (membership_level interview_status : option lookup_value)
         (gender : option string) (birthdate : option Z)
         (phone email basic_info : option string) (w : world),
    configured w = true -> faults w = [] ->
    unknown_code_in (membership_levels (store w)) membership_level \/
    unknown_code_in (interview_statuses (store w)) interview_status ->
    exists (msg : string) (w' : world) (seen : list event),
      Db.create_member name membership_level interview_status gender
        birthdate phone email basic_info w
      = (Raise (ValueError msg), w') /\
      store w' = store w /\
      txn w' = None /\
      open_connections w' = open_connections w /\
      trace w' = (ConnClose :: CursorClose :: Rollback :: seen) ++ trace w /\
      ~ In Commit seen /\
      fst (Db.get_all_members w') = fst (Db.get_all_members w).
Proof.
  intros name ml ist g b p e bi w Hc Hf Hunknown. open_world w.
  unfold Db.create_member, Db.get_connection, try_finally, try_except,
    Db._resolve_lookup_id, connect, cur_execute, conn_rollback, conn_close,
    cur_close, bind, tell, round_trip, raise, ret, Sql.select_lookup_id.
  destruct Hunknown as [(code & -> & Hn)|(code & -> & Hn)]; cbn.
  - cbn in Hn. rewrite (find_code_none _ _ Hn). cbn.
    do 3 eexists. repeat split; try trace_split. cbn. intuition discriminate.
  - cbn in Hn.
    destruct ml as [[n|c]|]; cbn;
      try (destruct (find _ (membership_levels _)) as [r|]; cbn);
      try rewrite (find_code_none _ _ Hn); cbn;
      do 3 eexists; (repeat split); try trace_split;
      cbn; intuition discriminate.
Qed.

Lemma has_lookup_in (rows : list lookup_row) (r : lookup_row) :
  In r rows -> existsb (fun x => lk_id x =? lk_id r) rows = true.
Proof.
  intros Hin. apply existsb_exists. exists r. split; [exact Hin|].
  apply Z.eqb_refl.
Qed.

(** C6.  In the place of membership_level, as in the place of
    interview_status, a code that a row of the lookup table carries and
    the numeric id of that row are interchangeable for [create_member]:
    both calls end the same way and leave the same committed tables, so
    the member they persist references the same lookup row.  With both
    values given as codes and a member id the store has not used, the
    call commits one new member row, which references the rows that
    carry the two codes. *)
Theorem create_member_code_or_id :
  forall (name : string) (gender : option string) (birthdate : option Z)
         (phone email basic_info : option string) (w : world)
         (r : lookup_row),
    configured w = true -> faults w = [] ->
    (forall other : option lookup_value,
        NoDup (map lk_code (membership_levels (store w))) ->
        In r (membership_levels (store w)) ->
        let by_code :=
          Db.create_member name (Some (StrV (lk_code r))) other gender
            birthdate phone email basic_info w in
        let by_id :=
          Db.create_member name (Some (IntV (lk_id r))) other gender
            birthdate phone email basic_info w in
        fst by_code = fst by_id /\ store (snd by_code) = store (snd by_id)) /\
    (forall other : option lookup_value,
        NoDup (map lk_code (interview_statuses (store w))) ->
        In r (interview_statuses (store w)) ->
        let by_code :=
          Db.create_member name other (Some (StrV (lk_code r))) gender
            birthdate phone email basic_info w in
        let by_id :=
          Db.create_member name other (Some (IntV (lk_id r))) gender
            birthdate phone email basic_info w in
        fst by_code = fst by_id /\ store (snd by_code) = store (snd by_id)) /\
    (forall r2 : lookup_row,
        NoDup (map lk_code (membership_levels (store w))) ->
        NoDup (map lk_code (interview_statuses (store w))) ->
        In r (membership_levels (store w)) ->
        In r2 (interview_statuses (store w)) ->
        Sql.has_member (next_uuid (store w)) (store w) = false ->
        let by_code :=
          Db.create_member name (Some (StrV (lk_code r)))
            (Some (StrV (lk_code r2))) gender birthdate phone email
            basic_info w in
        exists row : member_row,
          fst by_code = Ok {| Db.md_id := m_id row; Db.md_name := name |} /\
          members (store (snd by_code)) = members (store w) ++ [row] /\
          m_name row = name /\
          m_membership_level_id row = Some (lk_id r) /\
          m_interview_status_id row = Some (lk_id r2)).
Proof.
  intros name g b p e bi w r Hc Hf. open_world w.
  unfold Db.create_member, Db.get_connection, try_finally, try_except,
    Db._resolve_lookup_id, connect, cur_execute, conn_rollback, conn_close,
    conn_commit, cur_close, bind, tell, round_trip, raise, ret,
    Sql.select_lookup_id.
  split; [|split]; [intros other Hnd Hin; cbn ..|].
  - rewrite (find_code_unique _ _ Hnd Hin). cbn.
    destruct other as [[n|c]|]; cbn;
      try (destruct (find _ (interview_statuses _)) as [r'|]; cbn);
      try (split; reflexivity);
      match goal with
      | |- context [Sql.insert_member ?a ?b ?c ?d ?e ?f ?g ?h ?i] =>
          destruct (Sql.insert_member a b c d e f g h i) as [[row|err] d'];
          cbn; split; reflexivity
      end.
  - destruct other as [[n|c]|]; cbn;
      try (destruct (find _ (membership_levels _)) as [r'|]; cbn);
      try (split; reflexivity);
      rewrite (find_code_unique _ _ Hnd Hin); cbn;
      match goal with
      | |- context [Sql.insert_member ?a ?b ?c ?d ?e ?f ?g ?h ?i] =>
          destruct (Sql.insert_member a b c d e f g h i) as [[row|err] d'];
          cbn; split; reflexivity
      end.
  - intros r2 Hnd1 Hnd2 Hin1 Hin2 Hfresh. cbn.
    rewrite (find_code_unique _ _ Hnd1 Hin1). cbn.
    rewrite (find_code_unique _ _ Hnd2 Hin2). cbn.
    unfold Sql.insert_member. cbn.
    rewrite (has_lookup_in _ _ Hin1), (has_lookup_in _ _ Hin2), Hfresh. cbn.
    eexists. repeat split. reflexivity.
Qed.

(** *** Deleting a member *)

Lemma existsb_filter_negb {A} (f : A -> bool) (l : list A) :
  existsb f (filter (fun x => negb (f x)) l) = false.
Proof.
  induction l as [|x l IH]; simpl; [reflexivity|].
  destruct (f x) eqn:Hx; simpl; [exact IH|]. now rewrite Hx.
Qed.

Lemma filter_filter_negb {A} (f : A -> bool) (l : list A) :
  filter f (filter (fun x => negb (f x)) l) = [].
Proof.
  induction l as [|x l IH]; simpl; [reflexivity|].
  destruct (f x) eqn:Hx; simpl; [exact IH|]. now rewrite Hx.
Qed.

Lemma rowcount_unique (member_id : Z) (ms : list member_row) :
  NoDup (map m_id ms) ->
  Z.of_nat (List.length (filter (fun m => m_id m =? member_id) ms))
  = if existsb (fun m => m_id m =? member_id) ms then 1 else 0.
Proof.
  induction ms as [|m ms IH]; simpl; intros Hnd; [reflexivity|].
  inversion Hnd as [|? ? Hm Hnd']; subst.
  destruct (Z.eqb_spec (m_id m) member_id) as [Heq|Hne]; simpl.
  - rewrite filter_none; [reflexivity|].
    intros x Hx. apply Z.eqb_neq. intros Hxe. apply Hm.
    rewrite Heq, <- Hxe. now apply in_map.
  - now apply IH.
Qed.

Lemma unique_ids_filter (keep : member_row -> bool) (ms : list member_row) :
  NoDup (map m_id ms) -> NoDup (map m_id (filter keep ms)).
Proof.
  intros Hnd. induction ms as [|m ms IH]; simpl in *; [constructor|].
  inversion Hnd as [|? ? Hm Hrest]; subst.
  destruct (keep m); simpl; [constructor|]; auto.
  intros Hin. apply Hm. apply in_map_iff in Hin.
  destruct Hin as [m' [Hid Hin]]. apply filter_In in Hin.
  apply in_map_iff. exists m'. tauto.
Qed.

(** The world a successful [delete_member] leaves behind. *)
Lemma delete_member_run (member_id : Z) (w : world) :
  configured w = true -> faults w = [] ->
  NoDup (map m_id (members (store w))) ->
  Db.delete_member member_id w
  = (Ok (if Sql.has_member member_id (store w) then 1 else 0),
     {| database_url := database_url w;
        store := purge member_id (store w);
        txn := None;
        open_connections := open_connections w;
        faults := [];
        trace := [ConnClose; CursorClose; Commit;
                  Execute (DeleteMemberRow member_id);
                  Execute (DeleteOfferingsOf member_id); Connect]
                 ++ trace w |}).
Proof.
  intros Hc Hf Hnd. open_world w.
  unfold Db.delete_member, Db.get_connection, try_finally, try_except,
    connect, cur_execute, conn_rollback, conn_close, conn_commit, cur_close,
    bind, tell, round_trip, raise, ret, Sql.delete_offerings_of,
    Sql.delete_member_row, Sql.has_member.
  simpl. rewrite existsb_filter_negb, andb_false_r. simpl.
  now rewrite (rowcount_unique _ _ Hnd).
Qed.

(** C2.  On a configured process whose store answers and keeps member
    ids unique, [delete_member] first deletes the offerings of the
    member, then the member row, and commits, all on one connection and
    in one transaction; it returns 1 when the member row was there and
    0 when it was not, and a second call with the same id returns 0.
    Whatever the store does, the committed tables afterwards are either
    the ones from before the call or the ones with member and offerings
    both gone: never only one of the two deletions. *)
Theorem delete_member_spec :
  forall (member_id : Z) (w : world),
    (configured w = true -> faults w = [] ->
     NoDup (map m_id (members (store w))) ->
     exists w' : world,
       Db.delete_member member_id w
       = (Ok (if Sql.has_member member_id (store w) then 1 else 0), w') /\
       store w' = purge member_id (store w) /\
       trace w'
       = [ConnClose; CursorClose; Commit;
          Execute (DeleteMemberRow member_id);
          Execute (DeleteOfferingsOf member_id); Connect] ++ trace w /\
       txn w' = None /\
       open_connections w' = open_connections w /\
       fst (Db.delete_member member_id w') = Ok 0) /\
    (forall (r : result Z) (w' : world),
        Db.delete_member member_id w = (r, w') ->
        (exists e, r = Raise e) /\ store w' = store w \/
        (exists n, r = Ok n) /\ store w' = purge member_id (store w)).
Proof.
  intros member_id w. split.
  - intros Hc Hf Hnd.
    rewrite (delete_member_run member_id w Hc Hf Hnd).
    eexists. split; [reflexivity|]. simpl.
    repeat split.
    rewrite delete_member_run.
    + simpl. unfold Sql.has_member. simpl.
      now rewrite existsb_filter_negb.
    + exact Hc.
    + reflexivity.
    + simpl. now apply unique_ids_filter.
  - intros r w'.
    unfold Db.delete_member, Db.get_connection, try_finally, try_except,
      connect, cur_execute, conn_rollback, conn_close, conn_commit, cur_close,
      bind, tell, round_trip, raise, ret, Sql.delete_offerings_of,
      Sql.delete_member_row, Sql.has_member.
    any_world w; intros H; plan_cases;
      try (rewrite existsb_filter_negb, andb_false_r in H; simpl in H;
           plan_cases);
      injection H as <- <-; simpl;
      first [ left; split; [eexists; reflexivity|reflexivity]
            | right; split; [eexists; reflexivity|reflexivity] ].
Qed.

(** *** Connections and transactions on the failure paths *)

(** The calls written with try / except / finally give the connection
    back whatever happens. *)
Lemma guarded_calls_release_connection (w : world) :
  (forall name ml ist g b p e bi,
      open_connections (snd (Db.create_member name ml ist g b p e bi w))
      = open_connections w) /\
  (forall member_id,
      open_connections (snd (Db.delete_member member_id w))
      = open_connections w) /\
  (forall member_id amount note donated_at,
      open_connections (snd (Db.add_offering member_id amount note donated_at w))
      = open_connections w) /\
  (forall member_id,
      open_connections (snd (Db.get_offerings_for_member member_id w))
      = open_connections w).
Proof.
  repeat split; intros;
    unfold Db.create_member, Db.delete_member, Db.add_offering,
      Db.get_offerings_for_member, Db.get_connection, Db._resolve_lookup_id,
      try_finally, try_except, connect, cur_execute, conn_rollback,
      conn_close, conn_commit, cur_close, bind, tell, round_trip, raise, ret;
    any_world w; try reflexivity;
    repeat first
      [ reflexivity
      | progress plan_cases
      | match goal with
        | |- context [match ?v with Some _ => _ | None => _ end] =>
            is_var v; first [destruct v as [[?|?]|] | destruct v]; simpl
        | |- context [find ?f ?l] => destruct (find f l); simpl
        | |- context [if ?c then _ else _] => destruct c; simpl
        | |- context [Sql.insert_member ?a ?b ?c ?d ?e ?f ?g ?h ?i] =>
            destruct (Sql.insert_member a b c d e f g h i) as [[?|?] ?]; simpl
        | |- context [Sql.delete_member_row ?a ?d] =>
            destruct (Sql.delete_member_row a d) as [[?|?] ?]; simpl
        | |- context [Sql.insert_offering ?a ?b ?c ?d ?e] =>
            destruct (Sql.insert_offering a b c d e) as [[?|?] ?]; simpl
        end ].
Qed.

(** A write that fails leaves the committed tables as they were. *)
Lemma failed_write_persists_nothing (w : world) :
  (forall name ml ist g b p e bi,
      let '(r, w') := Db.create_member name ml ist g b p e bi w in
      match r with
      | Raise _ => store w' = store w
      | Ok _ => True
      end) /\
  (forall member_id amount note donated_at,
      let '(r, w') := Db.add_offering member_id amount note donated_at w in
      match r with
      | Raise _ => store w' = store w
      | Ok _ => True
      end).
Proof.
  repeat split; intros;
    unfold Db.create_member, Db.add_offering, Db.get_connection,
      Db._resolve_lookup_id, try_finally, try_except, connect, cur_execute,
      conn_rollback, conn_close, conn_commit, cur_close, bind, tell,
      round_trip, raise, ret;
    any_world w; try reflexivity;
    repeat first
      [ reflexivity
      | exact I
      | progress plan_cases
      | match goal with
        | |- context [match ?v with Some _ => _ | None => _ end] =>
            is_var v; first [destruct v as [[?|?]|] | destruct v]; simpl
        | |- context [find ?f ?l] => destruct (find f l); simpl
        | |- context [Sql.insert_member ?a ?b ?c ?d ?e ?f ?g ?h ?i] =>
            destruct (Sql.insert_member a b c d e f g h i) as [[?|?] ?]; simpl
        | |- context [Sql.insert_offering ?a ?b ?c ?d ?e] =>
            destruct (Sql.insert_offering a b c d e) as [[?|?] ?]; simpl
        | |- context [if ?c then _ else _] => destruct c; simpl
        end ].
Qed.

(** The three reads written without try / finally: when the statement
    fails on an open connection, the exception leaves the function
    before [conn.close()], and nothing rolls back. *)
Lemma unguarded_reads_leak (w : world) (fs : list bool) :
  configured w = true -> faults w = false :: true :: fs ->
  let leaked (A : Type) (out : result A * world) (s : sql) : Prop :=
    out = (Raise (StoreError "store failure"),
           {| database_url := database_url w;
              store := store w;
              txn := None;
              open_connections := S (open_connections w);
              faults := fs;
              trace := Execute s :: Connect :: trace w |}) in
  leaked _ (Db.get_all_members w) SelectMembers /\
  (forall term,
      leaked _ (Db.search_members_by_name term w)
        (SelectMembersILike (Db.ilike_pattern term))) /\
  (forall name,
      leaked _ (Db.get_member_id_by_name name w) (SelectMemberIdByName name)).
Proof.
  intros Hc Hf. open_world w. repeat split.
Qed.

(** C9, at its failing input.  [get_all_members], [get_member_id_by_name]
    and [search_members_by_name] on a store that accepts the connection
    and fails the statement: the StoreError propagates, the connection
    stays open (one more than before the call), and the trace of the
    call holds no rollback and no close, against the claim that every
    data-access operation releases its connection on every exit path
    and rolls back before it propagates a failure. *)
Theorem reads_leak_connection_on_store_error :
  let leaks (A : Type) (out : result A * world) : Prop :=
    fst out = Raise (StoreError "store failure") /\
    open_connections (snd out) = S (open_connections flaky_world) /\
    ~ In ConnClose (trace (snd out)) /\
    ~ In Rollback (trace (snd out)) in
  leaks _ (Db.get_all_members flaky_world) /\
  leaks _ (Db.get_member_id_by_name "Bob" flaky_world) /\
  leaks _ (Db.search_members_by_name "mei" flaky_world) /\
  open_connections (snd (Db.delete_member 10 flaky_world))
  = open_connections flaky_world.
Proof.
  repeat split; try (vm_compute; intuition discriminate).
Qed.

(** *** src/app.py: a delete that never reports failure *)


(** *** src/backend/app.py: what a failure becomes *)

(** C7, as the code has it.  When the data-access call of a request
    fails with anything but the classified UnknownCode (a constraint
    violation, any other store error), POST /members and
    DELETE /members/{id} answer 500, while POST /offerings and
    GET /members/{id}/offerings answer 400; the detail of each answer
    is a fixed sentence of the handler, so nothing of the error reaches
    the caller.  The three handlers without a try (list, search, id by
    name) answer nothing themselves: the exception leaves them. *)
Theorem api_failure_responses :
  forall (w w' : world) (e : exn),
    unclassified e ->
    (forall m : Api.MemberCreate,
        Db.create_member (Api.name m) (Api.membership_level m)
          (Api.interview_status m) (Api.gender m)
          (option_map Api.datetime_date (Api.birthdate m))
          (Api.phone m) (Api.email m) (Api.basic_info m) w
        = (Raise e, w') ->
        Api.serve 201 (Api.api_add_member m) w
        = (Api.ErrorReply 500 "Failed to create member", w')) /\
    (forall member_id : Z,
        Db.delete_member member_id w = (Raise e, w') ->
        Api.serve 204 (Api.api_delete_member_ep member_id) w
        = (Api.ErrorReply 500 "Failed to delete member", w')) /\
    (forall body : Api.OfferingCreate,
        Db.add_offering (Api.member_id body) (Api.amount body)
          (match Api.note body with Some s => s | None => EmptyString end)
          (Api.donated_at body) w
        = (Raise e, w') ->
        Api.serve 201 (Api.api_add_offering body) w
        = (Api.ErrorReply 400 "Failed to add offering", w')) /\
    (forall member_id : Z,
        Db.get_offerings_for_member member_id w = (Raise e, w') ->
        Api.serve 200 (Api.api_member_offerings member_id) w
        = (Api.ErrorReply 400 "Failed to fetch offerings", w')) /\
    (Db.get_all_members w = (Raise e, w') ->
     Api.serve 200 Api.api_get_members w = (Api.Crash e, w')) /\
    (forall term : string,
        Db.search_members_by_name term w = (Raise e, w') ->
        Api.serve 200 (Api.api_search_members term) w = (Api.Crash e, w')) /\
    (forall name : string,
        Db.get_member_id_by_name name w = (Raise e, w') ->
        Api.serve 200 (Api.api_get_member_id name) w = (Api.Crash e, w')).
Proof.
  intros w w' e He.
  unfold Api.serve, Api.api_add_member, Api.api_delete_member_ep,
    Api.api_add_offering, Api.api_member_offerings, Api.api_get_members,
    Api.api_search_members, Api.api_get_member_id, try_except, bind, raise.
  repeat split; intros; rewrite H; destruct e; simpl in He;
    try contradiction; reflexivity.
Qed.

(** C7 as stated does not hold: a foreign-key violation under
    POST /offerings, and a store failure under
    GET /members/{id}/offerings, are answered with 400, not 500. *)
Lemma offerings_store_error_is_400 :
  (fst (Db.add_offering 77 (SqlNumeric 10 0) EmptyString None sample_world)
   = Raise (StoreError "foreign key violation") /\
   fst (Api.serve 201
          (Api.api_add_offering
             {| Api.member_id := 77; Api.amount := SqlNumeric 10 0;
                Api.note := None; Api.donated_at := None |})
          sample_world)
   = Api.ErrorReply 400 "Failed to add offering") /\
  (fst (Db.get_offerings_for_member 10 flaky_world)
   = Raise (StoreError "store failure") /\
   fst (Api.serve 200 (Api.api_member_offerings 10) flaky_world)
   = Api.ErrorReply 400 "Failed to fetch offerings").
Proof.
  repeat split.
Qed.


(** *** src/app.py next to src/backend/db.py *)

(** The earlier [create_member] takes codes only.  An unknown code ends
    it the same way for the tables (rollback, nothing persisted), but
    the ValueError is caught and printed and the value is None. *)
Lemma app_create_member_unknown_code (name level_code status_code : string)
    (g : option string) (b : option Z) (p e bi : option string) (w : world) :
  configured w = true -> faults w = [] ->
  (forall r, In r (membership_levels (store w)) -> lk_code r <> level_code) ->
  exists w' : world,
    App.create_member name level_code status_code g b p e bi w
    = (Ok None, w') /\
    store w' = store w /\
    trace w'
    = [ConnClose; CursorClose;
       Print (String.append "Error creating member: "
                (App.unknown_level level_code));
       Rollback;
       Execute (SelectLookupId "membership_levels" level_code); Connect]
      ++ trace w.
Proof.
  intros Hc Hf Hnone. open_world w.
  unfold App.create_member, App.get_connection, try_finally, try_except,
    connect, cur_execute, conn_rollback, conn_close, cur_close, print, bind,
    tell, round_trip, raise, ret, Sql.select_lookup_id.
  cbn. rewrite (find_code_none _ _ Hnone). cbn.
  eexists. repeat split.
Qed.

(** The earlier [get_offerings_for_member] returns the bare rows, in
    the order the later one keeps for its log. *)
Lemma app_get_offerings_rows (member_id : Z) (w : world) :
  configured w = true -> faults w = [] ->
  exists rows : list offering_row,
    fst (App.get_offerings_for_member member_id w) = Ok rows /\
    option_map Db.ol_log
      (match fst (Db.get_offerings_for_member member_id w) with
       | Ok r => Some r
       | Raise _ => None
       end)
    = Some (map Db._offering_row_to_dict rows).
Proof.
  intros Hc Hf. open_world w. eexists. split; reflexivity.
Qed.

(* ================================================================== *)
(** ** The theorems at work on the sample registry                     *)
(* ================================================================== *)

Lemma sample_member_ids_unique :
  NoDup (map m_id (members (store sample_world))).
Proof.
  simpl. repeat constructor; simpl; intuition discriminate.
Defined.

Lemma sample_level_codes_unique :
  NoDup (map lk_code (membership_levels (store sample_world))).
Proof.
  simpl. repeat constructor; simpl; intuition discriminate.
Defined.

Lemma sample_status_codes_unique :
  NoDup (map lk_code (interview_statuses (store sample_world))).
Proof.
  simpl. repeat constructor; simpl; intuition discriminate.
Defined.

(** C1 at work: "elder" is the code of no membership level. *)
Lemma create_member_unknown_code_witness :
  exists (msg : string) (w' : world) (seen : list event),
    Db.create_member "Zed" (Some (StrV "elder")) None None None None None None
      sample_world
    = (Raise (ValueError msg), w') /\
    store w' = store sample_world /\
    txn w' = None /\
    open_connections w' = open_connections sample_world /\
    trace w' = (ConnClose :: CursorClose :: Rollback :: seen)
               ++ trace sample_world /\
    ~ In Commit seen /\
    fst (Db.get_all_members w') = fst (Db.get_all_members sample_world).
Proof.
  apply create_member_unknown_code; [reflexivity|reflexivity|].
  left. exists "elder"%string. split; [reflexivity|].
  simpl. intros r [<-|[<-|[]]]; discriminate.
Defined.

(** C2 at work: member 10 and its three offerings. *)
Lemma delete_member_spec_witness :
  exists w' : world,
    Db.delete_member 10 sample_world = (Ok 1, w') /\
    store w' = purge 10 (store sample_world) /\
    trace w'
    = [ConnClose; CursorClose; Commit; Execute (DeleteMemberRow 10);
       Execute (DeleteOfferingsOf 10); Connect] ++ trace sample_world /\
    txn w' = None /\
    open_connections w' = open_connections sample_world /\
    fst (Db.delete_member 10 w') = Ok 0.
Proof.
  apply (proj1 (delete_member_spec 10 sample_world));
    [reflexivity|reflexivity|exact sample_member_ids_unique].
Defined.



(** C5 at work: "member" is level 2, "elder" is unknown. *)
Lemma resolve_lookup_id_spec_witness :
  fst (Db._resolve_lookup_id "membership_levels" (Some (StrV "member"))
         sample_world)
  = Ok (Some 2) /\
  fst (Db._resolve_lookup_id "membership_levels" (Some (StrV "elder"))
         sample_world)
  = Raise (ValueError (Db.unknown_code "membership_levels" "elder")).
Proof.
  destruct (resolve_lookup_id_spec "membership_levels" sample_world)
    as [_ [_ Hcode]].
  split.
  - apply (proj1 (Hcode _ "member"%string eq_refl sample_level_codes_unique
                    eq_refl)
             {| lk_id := 2; lk_code := "member" |});
      [simpl; tauto|reflexivity].
  - apply (proj2 (Hcode _ "elder"%string eq_refl sample_level_codes_unique
                    eq_refl)).
    simpl. intros r [<-|[<-|[]]]; discriminate.
Defined.

(** C6 at work: "member" or 2, with status "accepted". *)
Lemma create_member_code_or_id_witness :
  fst (Db.create_member "Zed" (Some (StrV "member")) (Some (StrV "accepted"))
         None None None None None sample_world)
  = fst (Db.create_member "Zed" (Some (IntV 2)) (Some (StrV "accepted"))
           None None None None None sample_world) /\
  exists row : member_row,
    fst (Db.create_member "Zed" (Some (StrV "member"))
           (Some (StrV "accepted")) None None None None None sample_world)
    = Ok {| Db.md_id := m_id row; Db.md_name := "Zed" |} /\
    m_membership_level_id row = Some 2 /\
    m_interview_status_id row = Some 2.
Proof.
  destruct (create_member_code_or_id "Zed" None None None None None
              sample_world {| lk_id := 2; lk_code := "member" |}
              eq_refl eq_refl) as [Hlevel [_ Hboth]].
  split.
  - apply (Hlevel (Some (StrV "accepted")) sample_level_codes_unique).
    simpl. tauto.
  - destruct (Hboth {| lk_id := 2; lk_code := "accepted" |}
                sample_level_codes_unique sample_status_codes_unique)
      as (row & Hrun & _ & _ & Hl & Hs);
      [simpl; tauto|simpl; tauto|reflexivity|].
    exists row. auto.
Defined.

(** C7 at work: an offering for an id that is no member. *)
Lemma api_failure_responses_witness :
  Api.serve 201
    (Api.api_add_offering
       {| Api.member_id := 77; Api.amount := SqlNumeric 10 0;
          Api.note := None; Api.donated_at := None |})
    sample_world
  = (Api.ErrorReply 400 "Failed to add offering",
     snd (Db.add_offering 77 (SqlNumeric 10 0) EmptyString None sample_world)).
Proof.
  apply (proj1 (proj2 (proj2
           (api_failure_responses sample_world
              (snd (Db.add_offering 77 (SqlNumeric 10 0) EmptyString None
                      sample_world))
              (StoreError "foreign key violation") I)))).
  reflexivity.
Defined.



(* ================================================================== *)
(** ** Further properties of the three files                           *)
(* ================================================================== *)

(** *** Reading members *)

(** X1.  [get_all_members] on a configured process whose store answers:
    the {id, name} records of all members, each row once, in ascending
    order of created_at; the connection is closed again and the
    committed tables are untouched. *)
Theorem get_all_members_by_creation :
  forall w : world,
    configured w = true -> faults w = [] ->
    exists (rows : list member_row) (w' : world),
      Db.get_all_members w
      = (Ok (map (fun m => {| Db.md_id := m_id m; Db.md_name := m_name m |})
               rows), w') /\
      Permutation rows (members (store w)) /\
      StronglySorted (fun a b => m_created_at a <= m_created_at b) rows /\
      store w' = store w /\
      open_connections w' = open_connections w /\
      trace w'
      = [ConnClose; CursorClose; Execute SelectMembers; Connect] ++ trace w.
Proof.
  intros w Hc Hf. open_world w.
  exists (order_by (fun a b => m_created_at a <=? m_created_at b)
            (members store0)).
  eexists. split.
  - unfold Db.get_all_members, Db.get_connection, connect, cur_execute, bind,
      tell, round_trip, cur_close, conn_close, ret, Sql.select_members.
    simpl. rewrite map_map. reflexivity.
  - split; [apply Permutation_sym, order_by_perm|]. split.
    + eapply StronglySorted_impl;
        [|apply (order_by_sorted
                   (fun a b => m_created_at a <=? m_created_at b))].
      * cbn beta. intros x y H. now apply Z.leb_le.
      * intros x y. rewrite !Z.leb_le. lia.
      * intros x y z. rewrite !Z.leb_le. lia.
    + repeat split.
Qed.

(** X2.  [get_member_id_by_name] on a configured process whose store
    answers: the value is None exactly when no member has that very
    name, and an id it returns is the id of a member with that name. *)
Theorem get_member_id_by_name_exact :
  forall (name : string) (w : world),
    configured w = true -> faults w = [] ->
    (fst (Db.get_member_id_by_name name w) = Ok None <->
     forall m, In m (members (store w)) -> m_name m <> name) /\
    (forall i : Z,
        fst (Db.get_member_id_by_name name w) = Ok (Some i) ->
        exists m, In m (members (store w)) /\ m_name m = name /\ m_id m = i) /\
    (exists r, fst (Db.get_member_id_by_name name w) = Ok r) /\
    store (snd (Db.get_member_id_by_name name w)) = store w /\
    open_connections (snd (Db.get_member_id_by_name name w))
    = open_connections w.
Proof.
  intros name w Hc Hf. open_world w.
  unfold Db.get_member_id_by_name, Db.get_connection, connect, cur_execute,
    bind, tell, round_trip, cur_close, conn_close, ret,
    Sql.select_member_id_by_name.
  cbn.
  destruct (find (fun m => String.eqb (m_name m) name) (members store0))
    as [m|] eqn:Hfind; simpl.
  - apply find_some in Hfind. destruct Hfind as [Hin Hname].
    apply String.eqb_eq in Hname.
    split; [split; [discriminate|]|].
    + intros Hnone. exfalso. now apply (Hnone m).
    + split; [|split; [eexists; reflexivity|split; reflexivity]].
      intros i Hi. injection Hi as <-. exists m. auto.
  - split; [split; [|reflexivity]|].
    + intros _ m Hin Hname.
      apply (find_none _ _ Hfind) in Hin. apply String.eqb_neq in Hin. auto.
    + split; [discriminate|].
      split; [eexists; reflexivity|split; reflexivity].
Qed.

(** *** What the calls leave alone *)

(** X3.  Without DATABASE_URL (unset or empty) every function of db.py
    raises RuntimeError before it reaches the store: nothing is
    connected, executed or changed.  The API layer turns that into 500
    for member creation and deletion, into 400 for the two offering
    routes, and lets it out of the handlers that have no try. *)
Theorem missing_database_url :
  forall w : world,
    configured w = false ->
    let stop (A : Type) (call : M A) : Prop :=
      call w = (Raise (RuntimeError "DATABASE_URL not set"), w) in
    (stop _ Db.get_all_members /\
     (forall term, stop _ (Db.search_members_by_name term)) /\
     (forall name, stop _ (Db.get_member_id_by_name name)) /\
     (forall name ml ist g b p e bi,
         stop _ (Db.create_member name ml ist g b p e bi)) /\
     (forall member_id, stop _ (Db.delete_member member_id)) /\
     (forall member_id amount note donated_at,
         stop _ (Db.add_offering member_id amount note donated_at)) /\
     (forall member_id, stop _ (Db.get_offerings_for_member member_id))) /\
    (forall m, Api.serve 201 (Api.api_add_member m) w
               = (Api.ErrorReply 500 "Failed to create member", w)) /\
    (forall member_id,
        Api.serve 204 (Api.api_delete_member_ep member_id) w
        = (Api.ErrorReply 500 "Failed to delete member", w)) /\
    (forall body, Api.serve 201 (Api.api_add_offering body) w
                  = (Api.ErrorReply 400 "Failed to add offering", w)) /\
    (forall member_id,
        Api.serve 200 (Api.api_member_offerings member_id) w
        = (Api.ErrorReply 400 "Failed to fetch offerings", w)) /\
    Api.serve 200 Api.api_get_members w
    = (Api.Crash (RuntimeError "DATABASE_URL not set"), w).
Proof.
  intros w Hc. destruct w as [url st tx oc fs tr].
  destruct url as [[|c url]|]; simpl in Hc; try discriminate;
    repeat split.
Qed.

(** X4.  Whatever the store does, the four reads of db.py leave the
    committed tables as they are, and no function of db.py ever changes
    a lookup table. *)
Theorem reads_never_write :
  forall w : world,
    (store (snd (Db.get_all_members w)) = store w /\
     (forall term, store (snd (Db.search_members_by_name term w)) = store w) /\
     (forall name, store (snd (Db.get_member_id_by_name name w)) = store w) /\
     (forall member_id,
         store (snd (Db.get_offerings_for_member member_id w)) = store w)) /\
    let lookups (d : database) := (membership_levels d, interview_statuses d) in
    (forall name ml ist g b p e bi,
        lookups (store (snd (Db.create_member name ml ist g b p e bi w)))
        = lookups (store w)) /\
    (forall member_id,
        lookups (store (snd (Db.delete_member member_id w)))
        = lookups (store w)) /\
    (forall member_id amount note donated_at,
        lookups (store
                   (snd (Db.add_offering member_id amount note donated_at w)))
        = lookups (store w)).
Proof.
  intros w. cbv zeta.
  unfold Db.get_all_members, Db.search_members_by_name,
    Db.get_member_id_by_name, Db.get_offerings_for_member, Db.create_member,
    Db.delete_member, Db.add_offering, Db.get_connection,
    Db._resolve_lookup_id, try_finally, try_except, connect, cur_execute,
    conn_rollback, conn_close, conn_commit, cur_close, bind, tell, round_trip,
    raise, ret, Sql.select_members, Sql.select_members_ilike,
    Sql.select_member_id_by_name, Sql.select_offerings_of,
    Sql.select_lookup_id, Sql.lookup_table, Sql.insert_member,
    Sql.delete_offerings_of, Sql.delete_member_row, Sql.insert_offering.
  repeat split; intros; any_world w; run_cases.
Qed.

(** *** The tables stay consistent *)

Lemma has_member_in (member_id : Z) (d : database) :
  Sql.has_member member_id d = true <-> In member_id (map m_id (members d)).
Proof.
  unfold Sql.has_member. rewrite existsb_exists, in_map_iff. split.
  - intros (m & Hin & Heq). apply Z.eqb_eq in Heq. now exists m.
  - intros (m & Heq & Hin). exists m. split; [exact Hin|].
    now apply Z.eqb_eq.
Qed.

Lemma unique_append {K} (keys : list K) (k : K) :
  NoDup keys -> ~ In k keys -> NoDup (keys ++ [k]).
Proof.
  intros Hnd Hk. apply (Permutation_NoDup (Permutation_cons_append keys k)).
  now constructor.
Qed.

Lemma unique_filter_key {Row K} (key : Row -> K) (keep : Row -> bool)
    (rows : list Row) :
  NoDup (map key rows) -> NoDup (map key (filter keep rows)).
Proof.
  intros Hnd. induction rows as [|r rows IH]; simpl in *; [constructor|].
  inversion Hnd as [|? ? Hr Hrest]; subst.
  destruct (keep r); simpl; [constructor|]; auto.
  intros Hin. apply Hr. apply in_map_iff in Hin.
  destruct Hin as [r' [Hk Hin]]. apply filter_In in Hin.
  apply in_map_iff. exists r'. tauto.
Qed.

Lemma insert_member_consistent (name : string) (l s : option Z)
    (g : option string) (b : option Z) (p e bi : option string)
    (d d' : database) (row : member_row) :
  consistent d ->
  Sql.insert_member name l s g b p e bi d = (Ok row, d') ->
  consistent d'.
Proof.
  intros (Hm & Ho & Hfk & Hlk). unfold Sql.insert_member.
  destruct (Sql.has_lookup (membership_levels d) l) eqn:Hl; simpl;
    [|discriminate].
  destruct (Sql.has_lookup (interview_statuses d) s) eqn:Hs; simpl;
    [|discriminate].
  destruct (Sql.has_member (next_uuid d) d) eqn:Hfresh; [discriminate|].
  intros H. injection H as <- <-. unfold consistent. simpl.
  repeat split.
  - rewrite map_app. simpl. apply unique_append; [exact Hm|].
    intros Hin. apply has_member_in in Hin. congruence.
  - exact Ho.
  - intros o Hin. specialize (Hfk o Hin). unfold Sql.has_member in *. simpl.
    rewrite existsb_app, Hfk. reflexivity.
  - apply in_app_or in H. destruct H as [H|[<-|[]]]; [now apply Hlk|exact Hl].
  - apply in_app_or in H. destruct H as [H|[<-|[]]]; [now apply Hlk|exact Hs].
Qed.

Lemma insert_offering_consistent (member_id : Z) (amount : sqlnum)
    (note : string) (donated_at : option Z) (d d' : database)
    (row : offering_row) :
  consistent d ->
  Sql.insert_offering member_id amount note donated_at d = (Ok row, d') ->
  consistent d'.
Proof.
  intros (Hm & Ho & Hfk & Hlk). unfold Sql.insert_offering.
  destruct (Sql.has_member member_id d) eqn:Hmem; simpl; [|discriminate].
  destruct (existsb (fun o => o_id o =? next_offering_id d) (offerings d))
    eqn:Hfresh; [discriminate|].
  intros H. injection H as <- <-. unfold consistent. simpl.
  repeat split.
  - exact Hm.
  - rewrite map_app. simpl. apply unique_append; [exact Ho|].
    intros Hin. apply in_map_iff in Hin. destruct Hin as (o & Hid & Hin).
    assert (existsb (fun o => o_id o =? next_offering_id d) (offerings d)
            = true) as Hex; [|congruence].
    apply existsb_exists. exists o. split; [exact Hin|]. now apply Z.eqb_eq.
  - intros o Hin. apply in_app_or in Hin.
    destruct Hin as [Hin|[<-|[]]]; [now apply Hfk|exact Hmem].
  - now apply Hlk.
  - now apply Hlk.
Qed.

Lemma purge_consistent (member_id : Z) (d : database) :
  consistent d -> consistent (purge member_id d).
Proof.
  intros (Hm & Ho & Hfk & Hlk). unfold consistent, purge. simpl.
  repeat split.
  - now apply unique_filter_key.
  - now apply unique_filter_key.
  - intros o Hin. apply filter_In in Hin. destruct Hin as [Hin Hne].
    specialize (Hfk o Hin). unfold Sql.has_member in *. simpl.
    apply existsb_exists in Hfk. destruct Hfk as (m & Hmin & Heq).
    apply existsb_exists. exists m. split; [|exact Heq].
    apply filter_In. split; [exact Hmin|].
    apply Z.eqb_eq in Heq. now rewrite Heq.
  - apply filter_In in H. now apply Hlk.
  - apply filter_In in H. now apply Hlk.
Qed.

#[local] Arguments Sql.insert_member : simpl never.
#[local] Arguments Sql.insert_offering : simpl never.

(** Where the committed tables can be after a write, whatever the store
    does: where they were, or where the one statement that changes
    them has put them. *)
Lemma create_member_outcome (name : string) (ml ist : option lookup_value)
    (g : option string) (b : option Z) (p e bi : option string) (w : world) :
  store (snd (Db.create_member name ml ist g b p e bi w)) = store w \/
  exists l s row,
    Sql.insert_member name l s g b p e bi (store w)
    = (Ok row, store (snd (Db.create_member name ml ist g b p e bi w))).
Proof.
  unfold Db.create_member, Db.get_connection, Db._resolve_lookup_id,
    try_finally, try_except, connect, cur_execute, conn_rollback, conn_close,
    conn_commit, cur_close, bind, tell, round_trip, raise, ret,
    Sql.select_lookup_id, Sql.lookup_table.
  any_world w; try (left; reflexivity);
    repeat first
      [ left; reflexivity
      | progress plan_cases
      | match goal with
        | |- context [match ?v with Some _ => _ | None => _ end] =>
            is_var v; destruct v as [[?|?]|]; simpl
        | |- context [find ?f ?l] => destruct (find f l); simpl
        | |- context [Sql.insert_member ?a ?b ?c ?d ?e ?f ?g ?h ?i] =>
            let E := fresh "E" in
            destruct (Sql.insert_member a b c d e f g h i) as [[?|?] ?] eqn:E;
            simpl
        end
      | right; do 3 eexists; eassumption ].
Qed.

Lemma add_offering_outcome (member_id : Z) (amount : sqlnum) (note : string)
    (donated_at : option Z) (w : world) :
  store (snd (Db.add_offering member_id amount note donated_at w)) = store w \/
  exists row,
    Sql.insert_offering member_id amount note donated_at (store w)
    = (Ok row,
       store (snd (Db.add_offering member_id amount note donated_at w))).
Proof.
  unfold Db.add_offering, Db.get_connection, try_finally, try_except, connect,
    cur_execute, conn_rollback, conn_close, conn_commit, cur_close, bind, tell,
    round_trip, raise, ret.
  destruct donated_at;
    (any_world w; try (left; reflexivity);
     repeat first
       [ left; reflexivity
       | progress plan_cases
       | match goal with
         | |- context [Sql.insert_offering ?a ?b ?c ?d ?e] =>
             let E := fresh "E" in
             destruct (Sql.insert_offering a b c d e) as [[?|?] ?] eqn:E;
             simpl
         end
       | right; eexists; reflexivity ]).
Qed.

Lemma delete_member_outcome (member_id : Z) (w : world) :
  store (snd (Db.delete_member member_id w)) = store w \/
  store (snd (Db.delete_member member_id w)) = purge member_id (store w).
Proof.
  unfold Db.delete_member, Db.get_connection, try_finally, try_except,
    connect, cur_execute, conn_rollback, conn_close, conn_commit, cur_close,
    bind, tell, round_trip, raise, ret, Sql.delete_offerings_of,
    Sql.delete_member_row, Sql.has_member.
  any_world w; try (left; reflexivity);
    plan_cases; try (left; reflexivity);
    rewrite existsb_filter_negb, andb_false_r; simpl; plan_cases;
    first [left; reflexivity | right; reflexivity].
Qed.

(** X5.  Whatever the store does (any failure of any round trip), a
    write of db.py that starts on consistent committed tables (unique
    member and offering ids, every offering owned by a member, every
    lookup reference pointing at a row) leaves them consistent: no
    orphaned offering, no dangling lookup id, no duplicate id. *)
Theorem writes_keep_tables_consistent :
  forall w : world,
    consistent (store w) ->
    (forall name ml ist g b p e bi,
        consistent (store (snd (Db.create_member name ml ist g b p e bi w)))) /\
    (forall member_id,
        consistent (store (snd (Db.delete_member member_id w)))) /\
    (forall member_id amount note donated_at,
        consistent
          (store (snd (Db.add_offering member_id amount note donated_at w)))).
Proof.
  intros w Hok. split; [|split]; intros.
  - destruct (create_member_outcome name ml ist g b p e bi w)
      as [->|(l & s & row & Hins)]; [exact Hok|].
    exact (insert_member_consistent _ _ _ _ _ _ _ _ _ _ _ Hok Hins).
  - destruct (delete_member_outcome member_id w) as [->| ->];
      [exact Hok|now apply purge_consistent].
  - destruct (add_offering_outcome member_id amount note donated_at w)
      as [->|(row & Hins)]; [exact Hok|].
    exact (insert_offering_consistent _ _ _ _ _ _ _ Hok Hins).
Qed.

(** *** Creating a member *)

(** On a store that answers, [create_member] is its insert, run on the
    two resolved foreign keys. *)
Lemma create_member_run (name : string) (ml ist : option lookup_value)
    (g : option string) (b : option Z) (p e bi : option string) (w : world)
    (l s : option Z) :
  configured w = true -> faults w = [] ->
  resolved (membership_levels (store w)) ml = Some l ->
  resolved (interview_statuses (store w)) ist = Some s ->
  let out := Db.create_member name ml ist g b p e bi w in
  fst out
  = match Sql.insert_member name l s g b p e bi (store w) with
    | (Ok row, _) => Ok {| Db.md_id := m_id row; Db.md_name := m_name row |}
    | (Raise err, _) => Raise err
    end /\
  store (snd out)
  = match Sql.insert_member name l s g b p e bi (store w) with
    | (Ok _, d') => d'
    | (Raise _, _) => store w
    end /\
  configured (snd out) = true /\ faults (snd out) = [] /\
  open_connections (snd out) = open_connections w.
Proof.
  intros Hc Hf Hl Hs. open_world w.
  destruct ml as [[n|c]|], ist as [[n'|c']|]; cbn in Hl, Hs;
    repeat match goal with
      | H : option_map _ (find ?f ?rows) = Some _ |- _ =>
          let E := fresh "E" in
          destruct (find f rows) eqn:E; cbn in H; [|discriminate H]
      end;
    injection Hl as <-; injection Hs as <-;
    unfold Db.create_member, Db.get_connection, Db._resolve_lookup_id,
      try_finally, try_except, connect, cur_execute, conn_rollback,
      conn_close, conn_commit, cur_close, bind, tell, round_trip, raise, ret,
      Sql.select_lookup_id, Sql.lookup_table;
    cbn;
    repeat match goal with
      | E : find ?f ?rows = Some _ |- context [find ?f ?rows] =>
          rewrite E; cbn
      end;
    match goal with
    | |- context [Sql.insert_member ?a ?b ?c ?d ?e ?f ?g ?h ?i] =>
        destruct (Sql.insert_member a b c d e f g h i) as [[row|err] d']
    end; cbn; repeat split.
Qed.

Lemma filter_fresh_id (ms : list member_row) (row : member_row) :
  ~ In (m_id row) (map m_id ms) ->
  filter (fun m => m_id m =? m_id row) (ms ++ [row]) = [row].
Proof.
  intros Hfresh. rewrite filter_app. simpl. rewrite Z.eqb_refl.
  rewrite filter_none; [reflexivity|].
  intros m Hin. apply Z.eqb_neq. intros Heq. apply Hfresh.
  rewrite <- Heq. now apply in_map.
Qed.

Lemma member_id_by_name_run (name : string) (w : world) :
  configured w = true -> faults w = [] ->
  fst (Db.get_member_id_by_name name w)
  = Ok (option_map m_id
          (find (fun m => String.eqb (m_name m) name) (members (store w)))).
Proof.
  intros Hc Hf. open_world w. reflexivity.
Qed.

Lemma find_name_appended (name : string) (ms : list member_row)
    (row : member_row) :
  (forall m, In m ms -> m_name m <> name) -> m_name row = name ->
  find (fun m => String.eqb (m_name m) name) (ms ++ [row]) = Some row.
Proof.
  intros Hnone Hrow. induction ms as [|m ms IH]; simpl.
  - now rewrite Hrow, String.eqb_refl.
  - destruct (String.eqb_spec (m_name m) name) as [Heq|_].
    + exfalso. apply (Hnone m); [now left|exact Heq].
    + apply IH. intros m' Hin. apply Hnone. now right.
Qed.

(** X6.  On a configured process whose store answers, [create_member]
    with lookup values that resolve to existing rows (or are absent)
    and a member id the store has not used returns an id that names
    exactly one committed row; that row carries the submitted name and
    the two resolved foreign keys and is the only change to the members
    table.  If no member had that name before, looking the name up
    afterwards returns the new id. *)
Theorem create_member_persists_one_row :
  forall (name : string) (ml ist : option lookup_value)
         (g : option string) (b : option Z) (p e bi : option string)
         (w : world) (l s : option Z),
    configured w = true -> faults w = [] ->
    resolved (membership_levels (store w)) ml = Some l ->
    resolved (interview_statuses (store w)) ist = Some s ->
    Sql.has_lookup (membership_levels (store w)) l = true ->
    Sql.has_lookup (interview_statuses (store w)) s = true ->
    Sql.has_member (next_uuid (store w)) (store w) = false ->
    let out := Db.create_member name ml ist g b p e bi w in
    exists row : member_row,
      fst out = Ok {| Db.md_id := m_id row; Db.md_name := name |} /\
      members (store (snd out)) = members (store w) ++ [row] /\
      filter (fun m => m_id m =? m_id row) (members (store (snd out)))
      = [row] /\
      m_name row = name /\
      m_membership_level_id row = l /\
      m_interview_status_id row = s /\
      offerings (store (snd out)) = offerings (store w) /\
      ((forall m, In m (members (store w)) -> m_name m <> name) ->
       fst (Db.get_member_id_by_name name (snd out)) = Ok (Some (m_id row))).
Proof.
  intros name ml ist g b p e bi w l s Hc Hf Hl Hs Hfl Hfs Hfresh out.
  destruct (create_member_run name ml ist g b p e bi w l s Hc Hf Hl Hs)
    as (Hres & Hstore & Hc' & Hf' & _).
  fold out in Hres, Hstore, Hc', Hf'.
  unfold Sql.insert_member in Hres, Hstore.
  rewrite Hfl, Hfs, Hfresh in Hres, Hstore. simpl in Hres, Hstore.
  pose (row := {| m_id := next_uuid (store w); m_name := name;
                  m_membership_level_id := l; m_interview_status_id := s;
                  m_gender := g; m_birthdate := b; m_phone := p;
                  m_email := e; m_basic_info := bi;
                  m_created_at := clock (store w) |}).
  exists row.
  split; [exact Hres|]. rewrite Hstore. simpl.
  split; [reflexivity|]. split.
  - apply (filter_fresh_id (members (store w)) row). simpl.
    intros Hin. apply has_member_in in Hin. congruence.
  - repeat split. intros Hnew.
    pose proof (find_name_appended name (members (store w)) row Hnew eq_refl)
      as Hfind.
    rewrite (member_id_by_name_run name (snd out) Hc' Hf'), Hstore.
    subst row. simpl in Hfind |- *. now rewrite Hfind.
Qed.


(** *** Recording and reading offerings *)




Lemma py_sum_zeros (xs : list pynum) :
  Forall (fun x => x = PInt 0) xs -> py_sum xs = PInt 0.
Proof.
  unfold py_sum. induction 1 as [|x xs Hx _ IH]; simpl; [reflexivity|].
  subst x. exact IH.
Qed.

Lemma zero_plus (x : option pynum) :
  (forall n, x <> Some (PInt n)) -> py_sum [or_zero x] = or_zero x.
Proof.
  intros Hx. destruct x as [[n|f]|]; [now elim (Hx n)| |reflexivity].
  unfold py_sum. simpl.
  destruct f as [s|s| |s m e]; reflexivity.
Qed.

(** X10.  Two edges of the total of [get_offerings_for_member].  When
    every offering of the member has a null (or zero) amount, the total
    is the integer 0, also when the log is not empty.  When the member
    has exactly one offering, the total is that amount rounded to two
    places: adding it to the start value 0 changes nothing. *)
Theorem offering_total_edges :
  forall (member_id : Z) (w : world),
    configured w = true -> faults w = [] ->
    ((forall o, In o (offerings (store w)) -> o_member_id o = member_id ->
                or_zero (Db._to_float (o_amount o)) = PInt 0) ->
     exists r, fst (Db.get_offerings_for_member member_id w) = Ok r /\
               Db.ol_total r = PInt 0) /\
    (forall o,
        filter (fun x => o_member_id x =? member_id) (offerings (store w))
        = [o] ->
        exists r, fst (Db.get_offerings_for_member member_id w) = Ok r /\
                  Db.ol_log r = [Db._offering_row_to_dict o] /\
                  Db.ol_total r
                  = py_round2 (or_zero (Db._to_float (o_amount o)))).
Proof.
  intros member_id w Hc Hf.
  pose proof (get_offerings_run member_id w Hc Hf) as Hget. cbv zeta in Hget.
  split.
  - intros Hnull. eexists. split; [exact Hget|]. simpl.
    rewrite py_sum_zeros; [reflexivity|].
    rewrite map_map. apply Forall_forall. intros x Hx.
    apply in_map_iff in Hx. destruct Hx as (o & <- & Hin). simpl.
    apply (Permutation_in _
             (Permutation_sym
                (order_by_perm
                   (fun a b => o_donated_at b <=? o_donated_at a) _))) in Hin.
    apply filter_In in Hin. destruct Hin as [Hin Hid].
    apply Hnull; [exact Hin|]. now apply Z.eqb_eq.
  - intros o Hone. rewrite Hone in Hget. simpl in Hget.
    eexists. split; [exact Hget|]. simpl. split; [reflexivity|].
    f_equal. apply zero_plus.
    intros n. unfold Db._to_float.
    destruct (o_amount o) as [[u sc|f]|]; discriminate.
Qed.

(** *** After a deletion *)

Lemma all_members_run (w : world) :
  configured w = true -> faults w = [] ->
  fst (Db.get_all_members w)
  = Ok (map Db._member_row_to_dict
          (map (fun m => (m_id m, m_name m))
             (order_by (fun a b => m_created_at a <=? m_created_at b)
                (members (store w))))).
Proof.
  intros Hc Hf. open_world w. reflexivity.
Qed.

Lemma filter_other_member (member_id other : Z) (os : list offering_row) :
  other <> member_id ->
  filter (fun o => o_member_id o =? other)
    (filter (fun o => negb (o_member_id o =? member_id)) os)
  = filter (fun o => o_member_id o =? other) os.
Proof.
  intros Hne. induction os as [|o os IH]; simpl; [reflexivity|].
  destruct (Z.eqb_spec (o_member_id o) member_id) as [Heq|_]; simpl.
  - destruct (Z.eqb_spec (o_member_id o) other) as [Heq'|_]; [congruence|].
    exact IH.
  - now rewrite IH.
Qed.

(** X11.  After a [delete_member] that went through, the member's
    offering log is empty with total 0, the member is no longer listed
    by [get_all_members], and the offering log of every other member
    is the same as before. *)
Theorem delete_member_then_read :
  forall (member_id : Z) (w : world),
    configured w = true -> faults w = [] ->
    NoDup (map m_id (members (store w))) ->
    let w' := snd (Db.delete_member member_id w) in
    fst (Db.get_offerings_for_member member_id w')
    = Ok {| Db.ol_member_id := member_id;
            Db.ol_total := PInt 0;
            Db.ol_log := [] |} /\
    (exists listed, fst (Db.get_all_members w') = Ok listed /\
                    ~ In member_id (map Db.md_id listed)) /\
    (forall other, other <> member_id ->
        fst (Db.get_offerings_for_member other w')
        = fst (Db.get_offerings_for_member other w)).
Proof.
  intros member_id w Hc Hf Hnd w'. subst w'.
  rewrite (delete_member_run member_id w Hc Hf Hnd). simpl snd.
  match goal with
  | |- context [Db.get_all_members ?x] => set (w' := x)
  end.
  assert (Hc' : configured w' = true) by exact Hc.
  assert (Hf' : faults w' = []) by reflexivity.
  split; [|split].
  - rewrite (get_offerings_run member_id w' Hc' Hf'). simpl.
    now rewrite filter_filter_negb.
  - rewrite (all_members_run w' Hc' Hf'). eexists. split; [reflexivity|].
    rewrite !map_map. simpl. intros Hin.
    apply in_map_iff in Hin. destruct Hin as (m & Hid & Hin).
    apply (Permutation_in _
             (Permutation_sym
                (order_by_perm
                   (fun a b => m_created_at a <=? m_created_at b) _))) in Hin.
    apply filter_In in Hin. destruct Hin as [_ Hkeep].
    rewrite Hid, Z.eqb_refl in Hkeep. discriminate.
  - intros other Hne.
    rewrite (get_offerings_run other w' Hc' Hf'),
      (get_offerings_run other w Hc Hf).
    simpl. now rewrite (filter_other_member member_id other _ Hne).
Qed.

(** *** The API layer on a store that answers *)


Lemma filter_keeps_all {A} (keep : A -> bool) (l : list A) :
  (forall x, In x l -> keep x = true) -> filter keep l = l.
Proof.
  induction l as [|x l IH]; simpl; intros H; [reflexivity|].
  rewrite (H x) by now left. f_equal. apply IH. intros y Hy. apply H.
  now right.
Qed.

(** X13.  DELETE /members/{id} of src/backend/app.py, on a store that
    answers and keeps member ids unique: 204 when the member row was
    there, 404 "Member not found" when it was not.  In both cases the
    deletion is committed: a 404 leaves the members table as it was but
    still removes offerings that carry the id. *)
Theorem api_delete_member_found_or_not :
  forall (member_id : Z) (w : world),
    configured w = true -> faults w = [] ->
    NoDup (map m_id (members (store w))) ->
    let out := Api.serve 204 (Api.api_delete_member_ep member_id) w in
    store (snd out) = purge member_id (store w) /\
    (Sql.has_member member_id (store w) = true ->
     fst out = Api.Reply 204 tt) /\
    (Sql.has_member member_id (store w) = false ->
     fst out = Api.ErrorReply 404 "Member not found" /\
     members (store (snd out)) = members (store w)).
Proof.
  intros member_id w Hc Hf Hnd out. subst out.
  unfold Api.serve, Api.api_delete_member_ep, try_except, bind, raise, ret.
  rewrite (delete_member_run member_id w Hc Hf Hnd).
  destruct (Sql.has_member member_id (store w)) eqn:Hmem; simpl.
  - split; [reflexivity|]. split; [reflexivity|discriminate].
  - split; [reflexivity|]. split; [discriminate|]. intros _.
    split; [reflexivity|].
    apply filter_keeps_all. intros m Hin.
    apply negb_true_iff, Z.eqb_neq. intros Heq.
    assert (Sql.has_member member_id (store w) = true) as H; [|congruence].
    apply has_member_in. rewrite <- Heq. now apply in_map.
Qed.

(** X14.  POST /members of src/backend/app.py on a store that answers.
    A membership_level code that no row carries is answered 400, and
    the detail is the message of the ValueError, which names the lookup
    table and the code; so is an unknown interview_status code once the
    membership level resolves.  When both values resolve to rows and
    the store accepts the insert, the answer is 201 with the id and the
    name of the new member. *)
Theorem api_add_member_answers :
  forall (m : Api.MemberCreate) (w : world),
    configured w = true -> faults w = [] ->
    (forall code,
        Api.membership_level m = Some (StrV code) ->
        (forall r, In r (membership_levels (store w)) -> lk_code r <> code) ->
        fst (Api.serve 201 (Api.api_add_member m) w)
        = Api.ErrorReply 400 (Db.unknown_code "membership_levels" code)) /\
    (forall l code,
        resolved (membership_levels (store w)) (Api.membership_level m)
        = Some l ->
        Api.interview_status m = Some (StrV code) ->
        (forall r, In r (interview_statuses (store w)) -> lk_code r <> code) ->
        fst (Api.serve 201 (Api.api_add_member m) w)
        = Api.ErrorReply 400 (Db.unknown_code "interview_statuses" code)) /\
    (forall l s,
        resolved (membership_levels (store w)) (Api.membership_level m)
        = Some l ->
        resolved (interview_statuses (store w)) (Api.interview_status m)
        = Some s ->
        Sql.has_lookup (membership_levels (store w)) l = true ->
        Sql.has_lookup (interview_statuses (store w)) s = true ->
        Sql.has_member (next_uuid (store w)) (store w) = false ->
        fst (Api.serve 201 (Api.api_add_member m) w)
        = Api.Reply 201 {| Db.md_id := next_uuid (store w);
                           Db.md_name := Api.name m |}).
Proof.
  intros m w Hc Hf. split; [|split].
  - intros code Hml Hnone. destruct m as [n ml ist g b p e bi].
    simpl in Hml. subst ml. open_world w.
    unfold Api.serve, Api.api_add_member, Db.create_member, Db.get_connection,
      Db._resolve_lookup_id, try_finally, try_except, connect, cur_execute,
      conn_rollback, conn_close, cur_close, bind, tell, round_trip, raise,
      ret, Sql.select_lookup_id, Sql.lookup_table.
    cbn. rewrite (find_code_none _ _ Hnone). reflexivity.
  - intros l code Hl Hist Hnone. destruct m as [n ml ist g b p e bi].
    simpl in Hl, Hist. subst ist. open_world w.
    destruct ml as [[k|c]|]; cbn in Hl;
      repeat match goal with
        | H : option_map _ (find ?f ?rows) = Some _ |- _ =>
            let E := fresh "E" in
            destruct (find f rows) eqn:E; cbn in H; [|discriminate H]
        end;
      unfold Api.serve, Api.api_add_member, Db.create_member,
        Db.get_connection, Db._resolve_lookup_id, try_finally, try_except,
        connect, cur_execute, conn_rollback, conn_close, cur_close, bind,
        tell, round_trip, raise, ret, Sql.select_lookup_id, Sql.lookup_table;
      cbn;
      repeat match goal with
        | E : find ?f ?rows = Some _ |- context [find ?f ?rows] =>
            rewrite E; cbn
        end;
      rewrite (find_code_none _ _ Hnone); reflexivity.
  - intros l s Hl Hs Hfl Hfs Hfresh. destruct m as [n ml ist g b p e bi].
    simpl in Hl, Hs |- *.
    destruct (create_member_run n ml ist g (option_map Api.datetime_date b)
                p e bi w l s Hc Hf Hl Hs) as (Hres & _).
    unfold Sql.insert_member in Hres. rewrite Hfl, Hfs, Hfresh in Hres.
    simpl in Hres.
    unfold Api.serve, Api.api_add_member, try_except. simpl.
    destruct (Db.create_member n ml ist g (option_map Api.datetime_date b)
                p e bi w) as [r w'].
    simpl in Hres. now subst r.
Qed.

(** *** Searching with any term *)

Lemma like_tokens_cons (c : ascii) (p : list ascii) :
  like_tokens (c :: p)
  = if Ascii.eqb c "%" then option_map (cons AnyString) (like_tokens p)
    else if Ascii.eqb c "_" then option_map (cons AnyChar) (like_tokens p)
    else if Ascii.eqb c "\" then
      match p with
      | [] => None
      | c' :: p'' => option_map (cons (Literal c')) (like_tokens p'')
      end
    else option_map (cons (Literal c)) (like_tokens p).
Proof.
  reflexivity.
Qed.


Lemma ilike_pattern_chars (term : string) :
  chars (Db.ilike_pattern term) = "%"%char :: chars term ++ ["%"%char].
Proof.
  unfold Db.ilike_pattern.
  change (chars (String "%" ?s)) with ("%"%char :: chars s).
  now rewrite chars_append.
Qed.


Lemma lower_idempotent (c : ascii) : lower (lower c) = lower c.
Proof.
  destruct c as [[] [] [] [] [] [] [] []]; reflexivity.
Qed.

Lemma lower_keeps_wildcards (c : ascii) :
  Ascii.eqb (lower c) "%" = Ascii.eqb c "%" /\
  Ascii.eqb (lower c) "_" = Ascii.eqb c "_" /\
  Ascii.eqb (lower c) "\" = Ascii.eqb c "\".
Proof.
  destruct c as [[] [] [] [] [] [] [] []]; repeat split.
Qed.

Lemma like_tokens_lower (p : list ascii) :
  like_tokens (map lower p)
  = option_map (map lower_token) (like_tokens p) /\
  forall c,
    like_tokens (map lower (c :: p))
    = option_map (map lower_token) (like_tokens (c :: p)).
Proof.
  induction p as [|d p [IH0 IH1]].
  - split; [reflexivity|]. intros c. simpl map. rewrite !like_tokens_cons.
    destruct (lower_keeps_wildcards c) as (-> & -> & ->).
    destruct (Ascii.eqb c "%"), (Ascii.eqb c "_"), (Ascii.eqb c "\");
      reflexivity.
  - split; [apply IH1|]. intros c.
    change (map lower (c :: d :: p)) with (lower c :: map lower (d :: p)).
    rewrite (like_tokens_cons (lower c)), (like_tokens_cons c).
    destruct (lower_keeps_wildcards c) as (-> & -> & ->).
    rewrite (IH1 d).
    change (map lower (d :: p)) with (lower d :: map lower p). cbv iota.
    rewrite IH0.
    destruct (Ascii.eqb c "%"), (Ascii.eqb c "_"), (Ascii.eqb c "\");
      try (now destruct (like_tokens (d :: p)));
      now destruct (like_tokens p).
Qed.

Lemma ilike_match_lower (ts : list like_token) (s : list ascii) :
  ilike_match (map lower_token ts) s = ilike_match ts s.
Proof.
  revert s. induction ts as [|t ts IH]; intros s; [reflexivity|].
  destruct t as [| |c]; simpl.
  - induction s as [|d s IHs]; simpl.
    + now rewrite IH.
    + rewrite IH. f_equal. exact IHs.
  - destruct s; [reflexivity|apply IH].
  - destruct s as [|d s]; [reflexivity|].
    now rewrite lower_idempotent, IH.
Qed.

(** X16.  The search does not look at the case of the letters of the
    term: two terms that differ only in the case of ASCII letters,
    wildcards and escapes included, get the same answer. *)
Theorem search_ignores_case_of_term :
  forall (t1 t2 : string) (w : world),
    configured w = true -> faults w = [] ->
    map lower (chars t1) = map lower (chars t2) ->
    fst (Db.search_members_by_name t1 w)
    = fst (Db.search_members_by_name t2 w).
Proof.
  intros t1 t2 w Hc Hf Hsame.
  rewrite (search_run t1 w Hc Hf), (search_run t2 w Hc Hf).
  assert (Hpat : map lower (chars (Db.ilike_pattern t1))
                 = map lower (chars (Db.ilike_pattern t2))).
  { rewrite !ilike_pattern_chars. simpl. rewrite !map_app. now rewrite Hsame. }
  pose proof (proj1 (like_tokens_lower (chars (Db.ilike_pattern t1)))) as H1.
  pose proof (proj1 (like_tokens_lower (chars (Db.ilike_pattern t2)))) as H2.
  rewrite Hpat, H2 in H1.
  destruct (like_tokens (chars (Db.ilike_pattern t1))) as [ts1|],
           (like_tokens (chars (Db.ilike_pattern t2))) as [ts2|];
    simpl in H1; try discriminate; [|reflexivity].
  injection H1 as Hts. do 3 f_equal. apply filter_ext. intros m.
  now rewrite <- (ilike_match_lower ts1), <- (ilike_match_lower ts2), Hts.
Qed.

(** *** src/app.py *)




(** X18.  [add_offering] of src/app.py has no try: for a member id that
    no member row carries the store's error leaves the function at the
    insert, so the connection stays open and nothing is committed or
    rolled back.  For an existing member it commits one offering row,
    closes the connection and returns the new id with the store's
    clock as donated_at. *)
Theorem app_add_offering_unguarded :
  forall (member_id : Z) (amount : sqlnum) (note : string) (w : world),
    configured w = true -> faults w = [] ->
    let out := App.add_offering member_id amount note w in
    (Sql.has_member member_id (store w) = false ->
     fst out = Raise (StoreError "foreign key violation") /\
     store (snd out) = store w /\
     open_connections (snd out) = S (open_connections w) /\
     trace (snd out)
     = [Execute (InsertOffering member_id None); Connect] ++ trace w) /\
    (Sql.has_member member_id (store w) = true ->
     existsb (fun o => o_id o =? next_offering_id (store w))
       (offerings (store w)) = false ->
     fst out = Ok (next_offering_id (store w), clock (store w)) /\
     offerings (store (snd out))
     = offerings (store w)
       ++ [ {| o_id := next_offering_id (store w);
               o_member_id := member_id; o_amount := Some amount;
               o_currency := default_currency (store w);
               o_donated_at := clock (store w); o_note := Some note |} ] /\
     open_connections (snd out) = open_connections w).
Proof.
  intros member_id amount note w Hc Hf out. subst out. open_world w.
  unfold App.add_offering, App.get_connection, connect, cur_execute,
    conn_commit, conn_close, cur_close, bind, tell, round_trip, raise, ret,
    Sql.insert_offering.
  cbn. split.
  - intros ->. cbn. repeat split.
  - intros -> ->. cbn. repeat split.
Qed.


(** *** Connections and answers, whatever the store does *)

(** X20.  Connection accounting of db.py for any behaviour of the
    store.  The four functions written with try / finally end with as
    many open connections as they started with, on every path.  The
    three reads written without it do so whenever they return; only
    when they raise can they leave a connection behind, and then one. *)
Theorem connection_accounting :
  forall w : world,
    ((forall name ml ist g b p e bi,
         open_connections (snd (Db.create_member name ml ist g b p e bi w))
         = open_connections w) /\
     (forall member_id,
         open_connections (snd (Db.delete_member member_id w))
         = open_connections w) /\
     (forall member_id amount note donated_at,
         open_connections
           (snd (Db.add_offering member_id amount note donated_at w))
         = open_connections w) /\
     (forall member_id,
         open_connections (snd (Db.get_offerings_for_member member_id w))
         = open_connections w)) /\
    let unguarded (A : Type) (out : result A * world) : Prop :=
      match fst out with
      | Ok _ => open_connections (snd out) = open_connections w
      | Raise _ =>
          open_connections (snd out) = open_connections w \/
          open_connections (snd out) = S (open_connections w)
      end in
    unguarded _ (Db.get_all_members w) /\
    (forall term, unguarded _ (Db.search_members_by_name term w)) /\
    (forall name, unguarded _ (Db.get_member_id_by_name name w)).
Proof.
  intros w. split; [exact (guarded_calls_release_connection w)|].
  cbv zeta.
  unfold Db.get_all_members, Db.search_members_by_name,
    Db.get_member_id_by_name, Db.get_connection, connect, cur_execute,
    conn_close, cur_close, bind, tell, round_trip, raise, ret,
    Sql.select_members, Sql.select_members_ilike,
    Sql.select_member_id_by_name.
  repeat split; intros; any_world w;
    repeat first
      [ reflexivity
      | left; reflexivity
      | right; reflexivity
      | progress plan_cases
      | match goal with
        | |- context [like_tokens ?p] => destruct (like_tokens p); cbn
        end ].
Qed.



(* ================================================================== *)
(** ** The further properties at work on the sample registry           *)
(* ================================================================== *)

Lemma sample_store_consistent : consistent (store sample_world).
Proof.
  unfold consistent. simpl. repeat split.
  - repeat constructor; simpl; intuition discriminate.
  - repeat constructor; simpl; intuition discriminate.
  - intros o [<-|[<-|[<-|[<-|[]]]]]; reflexivity.
  - destruct H as [<-|[<-|[<-|[]]]]; reflexivity.
  - destruct H as [<-|[<-|[<-|[]]]]; reflexivity.
Defined.

(** X1 at work: Bob (created 3), Mei Lin (5), Ameila (7). *)
Lemma get_all_members_by_creation_witness :
  exists rows : list member_row,
    fst (Db.get_all_members sample_world)
    = Ok (map (fun m => {| Db.md_id := m_id m; Db.md_name := m_name m |})
            rows) /\
    StronglySorted (fun a b => m_created_at a <= m_created_at b) rows.
Proof.
  destruct (get_all_members_by_creation sample_world eq_refl eq_refl)
    as (rows & w' & Hrun & _ & Hsorted & _).
  exists rows. split; [now rewrite Hrun|exact Hsorted].
Defined.

(** X2 at work: nobody is called "Nobody". *)
Lemma get_member_id_by_name_exact_witness :
  fst (Db.get_member_id_by_name "Nobody" sample_world) = Ok None.
Proof.
  apply (proj1 (get_member_id_by_name_exact "Nobody" sample_world
                  eq_refl eq_refl)).
  simpl. intros m [<-|[<-|[<-|[]]]]; discriminate.
Defined.

(** X3 at work. *)
Lemma missing_database_url_witness :
  Db.get_all_members offline_world
  = (Raise (RuntimeError "DATABASE_URL not set"), offline_world).
Proof.
  exact (proj1 (proj1 (missing_database_url offline_world eq_refl))).
Defined.

(** X5 at work: deleting member 10 on a store that fails the commit. *)
Lemma writes_keep_tables_consistent_witness :
  consistent
    (store (snd (Db.delete_member 10
                   (set_faults [false; false; false; true] sample_world)))).
Proof.
  apply (proj1 (proj2
           (writes_keep_tables_consistent
              (set_faults [false; false; false; true] sample_world)
              sample_store_consistent))).
Defined.

(** X6 at work: Zed joins as "member", interview status absent. *)
Lemma create_member_persists_one_row_witness :
  exists row : member_row,
    fst (Db.create_member "Zed" (Some (StrV "member")) None None None None
           None None sample_world)
    = Ok {| Db.md_id := m_id row; Db.md_name := "Zed" |} /\
    m_membership_level_id row = Some 2 /\
    m_interview_status_id row = None.
Proof.
  destruct (create_member_persists_one_row "Zed" (Some (StrV "member")) None
              None None None None None sample_world (Some 2) None
              eq_refl eq_refl eq_refl eq_refl eq_refl eq_refl eq_refl)
    as (row & Hrun & _ & _ & _ & Hl & Hs & _).
  exists row. auto.
Defined.




(** X10 at work: the one offering of member 12 is 100.555. *)
Lemma offering_total_edges_witness :
  exists r : Db.offering_log,
    fst (Db.get_offerings_for_member 12 sample_world) = Ok r /\
    Db.ol_total r = PFloat (PyFloat.of_decimal 10056 2).
Proof.
  destruct (proj2 (offering_total_edges 12 sample_world eq_refl eq_refl)
              (offering 4 12 (Some (SqlNumeric 100555 3)) 120) eq_refl)
    as (r & Hrun & _ & Htotal).
  exists r. split; [exact Hrun|]. rewrite Htotal. vm_compute. reflexivity.
Defined.

(** X11 at work: member 10 is deleted, member 12 keeps its log. *)
Lemma delete_member_then_read_witness :
  fst (Db.get_offerings_for_member 12
         (snd (Db.delete_member 10 sample_world)))
  = fst (Db.get_offerings_for_member 12 sample_world).
Proof.
  apply (proj2 (proj2 (delete_member_then_read 10 sample_world eq_refl
                         eq_refl sample_member_ids_unique))).
  discriminate.
Defined.


(** X13 at work. *)
Lemma api_delete_member_found_or_not_witness :
  fst (Api.serve 204 (Api.api_delete_member_ep 10) sample_world)
  = Api.Reply 204 tt /\
  fst (Api.serve 204 (Api.api_delete_member_ep 99) sample_world)
  = Api.ErrorReply 404 "Member not found".
Proof.
  split.
  - apply (proj1 (proj2 (api_delete_member_found_or_not 10 sample_world
                           eq_refl eq_refl sample_member_ids_unique))).
    reflexivity.
  - apply (proj2 (proj2 (api_delete_member_found_or_not 99 sample_world
                           eq_refl eq_refl sample_member_ids_unique))).
    reflexivity.
Defined.

(** X14 at work: the code "elder". *)
Lemma api_add_member_answers_witness :
  fst (Api.serve 201
         (Api.api_add_member
            {| Api.name := "Zed";
               Api.membership_level := Some (StrV "elder");
               Api.interview_status := None; Api.gender := None;
               Api.birthdate := None; Api.phone := None; Api.email := None;
               Api.basic_info := None |})
         sample_world)
  = Api.ErrorReply 400 "Unknown code in membership_levels: 'elder'".
Proof.
  apply (proj1 (api_add_member_answers
                  {| Api.name := "Zed";
                     Api.membership_level := Some (StrV "elder");
                     Api.interview_status := None; Api.gender := None;
                     Api.birthdate := None; Api.phone := None;
                     Api.email := None; Api.basic_info := None |}
                  sample_world eq_refl eq_refl) "elder"%string eq_refl).
  simpl. intros r [<-|[<-|[]]]; discriminate.
Defined.


(** X16 at work: "MEI" and "mei". *)
Lemma search_ignores_case_of_term_witness :
  fst (Db.search_members_by_name "MEI" sample_world)
  = fst (Db.search_members_by_name "mei" sample_world).
Proof.
  apply search_ignores_case_of_term; reflexivity.
Defined.


(** X18 at work: 77 is no member. *)
Lemma app_add_offering_unguarded_witness :
  open_connections
    (snd (App.add_offering 77 (SqlNumeric 10 0) EmptyString sample_world))
  = 1%nat.
Proof.
  apply (proj1 (app_add_offering_unguarded 77 (SqlNumeric 10 0) EmptyString
                  sample_world eq_refl eq_refl)).
  reflexivity.
Defined.

